(** * mdfreader: the [mdf_skeleton] channel store of [mdfreader/mdf.py]

    A shallow embedding of the class [mdf_skeleton] (a Python [dict]
    subclass holding one record per channel, the master-channel index
    [masterChannelList] and the file metadata), and the properties of its
    mutation and query contract.

    Python objects that the class shares by reference (the channel
    records, the index, the metadata dictionary) live in an explicit heap;
    a store object itself is the value [mdf_skeleton], threaded through
    every method together with the heap.  A method that raises keeps the
    mutations made before the exception, as in Python. *)

From Stdlib Require Import ZArith String.
From Stdlib.Floats Require Import SpecFloat.
From stdpp Require Import gmap strings list fin_maps pretty.

Open Scope Z_scope.

(** ** Python values *)

Definition loc := positive.

(** The values the store handles: [None], booleans, integers, binary64
    floats, strings, sequences (arrays of samples, coefficient arrays),
    dictionaries held by value (conversion descriptions) and references
    to dictionaries of the heap (channel records). *)
#[warnings="-register-all"]
Inductive pyval :=
  | VNone
  | VBool (b : bool)
  | VInt (z : Z)
  | VFloat (f : spec_float)
  | VStr (s : string)
  | VList (l : list pyval)
  | VDict (d : gmap string pyval)
  | VRef (l : loc).

Abbreviation pydict := (gmap string pyval).

(** Numbers, for [==] against a numeric literal. *)
Inductive pynum :=
  | NInt (z : Z)
  | NFloat (f : spec_float).

Definition as_num (v : pyval) : option pynum :=
  match v with
  | VBool b => Some (NInt (if b then 1 else 0))
  | VInt z => Some (NInt z)
  | VFloat f => Some (NFloat f)
  | _ => None
  end.

(** [int == float] compares the exact mathematical values. *)
Definition int_float_eqb (z : Z) (f : spec_float) : bool :=
  match f with
  | S754_zero _ => z =? 0
  | S754_finite s m e =>
      let sm := if s then Z.neg m else Z.pos m in
      if 0 <=? e then z =? sm * 2 ^ e else z * 2 ^ (- e) =? sm
  | _ => false
  end.

Definition num_eqb (a b : pynum) : bool :=
  match a, b with
  | NInt x, NInt y => x =? y
  | NFloat x, NFloat y => SFeqb x y
  | NInt x, NFloat y => int_float_eqb x y
  | NFloat x, NInt y => int_float_eqb y x
  end.

(** [v == n] for a numeric literal [n]: a value that is not a number is
    never equal to a number. *)
Definition py_eq_num (v : pyval) (n : pynum) : bool :=
  match as_num v with
  | Some m => num_eqb m n
  | None => false
  end.

(** [v in (n1, n2, ...)] for a tuple of numeric literals. *)
Definition py_in_nums (v : pyval) (ns : list pynum) : bool :=
  existsb (py_eq_num v) ns.

(** The binary64 literals of the source: [1.0], [0.0] and [-0.0]. *)
Definition float_one : spec_float := S754_finite false 4503599627370496 (-52).
Definition float_zero : spec_float := S754_zero false.
Definition float_neg_zero : spec_float := S754_zero true.

(** ** Module constants *)

Definition descriptionField : string := "description".
Definition unitField : string := "unit".
Definition dataField : string := "data".
Definition masterField : string := "master".
Definition masterTypeField : string := "masterType".
Definition conversionField : string := "conversion".
Definition attachmentField : string := "attachment".

(** ** Store objects and the heap *)

(** A master channel name: a string, or [None]. *)
Abbreviation master_name := (option string).

Definition master_val (m : master_name) : pyval :=
  match m with
  | Some s => VStr s
  | None => VNone
  end.

(** One [mdf_skeleton] object: its own dictionary ([items], channel name
    to record object) and its attributes.  [masterChannelList] and
    [file_metadata] are references: [copy] makes two stores point to the
    same objects. *)
Record mdf_skeleton := Mdf {
  items : gmap string loc;
  masterChannelList : loc;
  multiProc : bool;
  file_metadata : loc;
  MDFVersionNumber : Z;
  filterChannelNames : bool;
  convert_tables : bool;
  _pandasframe : bool;
  fileName : option string
}.

Abbreviation mcl_dict := (gmap master_name (list string)).

(** The heap: string-keyed dictionaries (channel records, metadata) and
    master-channel indexes. *)
Record heap := Heap {
  dicts : gmap loc pydict;
  indexes : gmap loc mcl_dict
}.

Definition set_items (f : gmap string loc → gmap string loc) (s : mdf_skeleton) : mdf_skeleton :=
  Mdf (f (items s)) (masterChannelList s) (multiProc s) (file_metadata s)
      (MDFVersionNumber s) (filterChannelNames s) (convert_tables s)
      (_pandasframe s) (fileName s).

Definition set_dicts (f : gmap loc pydict → gmap loc pydict) (h : heap) : heap :=
  Heap (f (dicts h)) (indexes h).

Definition set_indexes (f : gmap loc mcl_dict → gmap loc mcl_dict) (h : heap) : heap :=
  Heap (dicts h) (f (indexes h)).

(** The dictionary a reference points to.  Every reference the methods
    hand out is in the heap; one that is not reads as an empty
    dictionary. *)
Definition deref (h : heap) (l : loc) : pydict := default ∅ (dicts h !! l).

Definition deref_index (h : heap) (l : loc) : mcl_dict := default ∅ (indexes h !! l).

(** ** Exceptions and the method monad *)

Inductive exn := KeyError | TypeError | ValueError.

Inductive res (A : Type) :=
  | Ok (a : A)
  | Raise (e : exn).
Arguments Ok {A} a.
Arguments Raise {A} e.

Definition state : Type := mdf_skeleton * heap.

(** A method body: it runs on [self] and the heap, and returns or raises;
    the state it leaves is kept in both cases. *)
Definition M (A : Type) : Type := state → res A * state.

#[global] Instance M_ret : MRet M := λ A a st, (Ok a, st).

#[global] Instance M_bind : MBind M := λ A B f m st,
  match m st with
  | (Ok a, st') => f a st'
  | (Raise e, st') => (Raise e, st')
  end.

Definition raise {A : Type} (e : exn) : M A := λ st, (Raise e, st).

Definition get_self : M mdf_skeleton := λ st, (Ok st.1, st).

Definition get_heap : M heap := λ st, (Ok st.2, st).

Definition modify_self (f : mdf_skeleton → mdf_skeleton) : M unit :=
  λ st, (Ok (), (f st.1, st.2)).

Definition modify_heap (f : heap → heap) : M unit :=
  λ st, (Ok (), (st.1, f st.2)).

(** ** Dictionary primitives *)

(** [name in self] *)
Definition self_contains (name : string) : M bool :=
  s ← get_self; mret (bool_decide (is_Some (items s !! name))).

(** [self[name]] *)
Definition self_getitem (name : string) : M loc :=
  s ← get_self;
  match items s !! name with
  | Some r => mret r
  | None => raise KeyError
  end.

(** [self[name] = r] *)
Definition self_setitem (name : string) (r : loc) : M unit :=
  modify_self (set_items <[name := r]>).

(** [self.pop(name)] *)
Definition self_pop (name : string) : M loc :=
  s ← get_self;
  match items s !! name with
  | Some r => modify_self (set_items (delete name));; mret r
  | None => raise KeyError
  end.

(** [{}]: a new, empty dictionary object. *)
Definition new_dict : M loc :=
  h ← get_heap;
  let l := fresh (dom (dicts h)) in
  modify_heap (set_dicts <[l := ∅]>);; mret l.

(** [d[k] = v] on the dictionary object [d]. *)
Definition dict_setitem (d : loc) (k : string) (v : pyval) : M unit :=
  h ← get_heap;
  modify_heap (set_dicts <[d := <[k := v]> (deref h d)]>).

(** [k in d] *)
Definition dict_contains (d : loc) (k : string) : M bool :=
  h ← get_heap; mret (bool_decide (is_Some (deref h d !! k))).

(** [d[k]] *)
Definition dict_getitem (d : loc) (k : string) : M pyval :=
  h ← get_heap;
  match deref h d !! k with
  | Some v => mret v
  | None => raise KeyError
  end.

(** [d.pop(k)] *)
Definition dict_pop (d : loc) (k : string) : M pyval :=
  h ← get_heap;
  match deref h d !! k with
  | Some v => modify_heap (set_dicts <[d := delete k (deref h d)]>);; mret v
  | None => raise KeyError
  end.

(** [k in v] where [v] is what [getChannel] returned: a record, whose
    keys are searched, or [None], which is not iterable.  (The class has
    no other use of [in] on a value; a dictionary held by value is
    searched alike.) *)
Definition py_contains (k : string) (v : pyval) : M bool :=
  match v with
  | VRef d => dict_contains d k
  | VDict d => mret (bool_decide (is_Some (d !! k)))
  | _ => raise TypeError
  end.

(** [v[k]] for a string key [k]: a dictionary is looked up, anything
    else cannot be indexed by a string. *)
Definition py_getitem (v : pyval) (k : string) : M pyval :=
  match v with
  | VRef d => dict_getitem d k
  | VDict d =>
      match d !! k with
      | Some x => mret x
      | None => raise KeyError
      end
  | _ => raise TypeError
  end.

(** ** Index primitives *)

(** [m in self.masterChannelList.keys()] *)
Definition mcl_contains (m : master_name) : M bool :=
  s ← get_self; h ← get_heap;
  mret (bool_decide (is_Some (deref_index h (masterChannelList s) !! m))).

(** [self.masterChannelList[m] = l] *)
Definition mcl_setitem (m : master_name) (l : list string) : M unit :=
  s ← get_self; h ← get_heap;
  let i := masterChannelList s in
  modify_heap (set_indexes <[i := <[m := l]> (deref_index h i)]>).

(** A value used as a key of the index.  The keys the index holds are
    strings or [None]; a sequence or a dictionary is not hashable
    ([TypeError]), and any other value is a key the index cannot hold
    ([KeyError] at the lookup). *)
Definition as_master (v : pyval) : M master_name :=
  match v with
  | VNone => mret None
  | VStr m => mret (Some m)
  | VList _ | VDict _ | VRef _ => raise TypeError
  | VBool _ | VInt _ | VFloat _ => raise KeyError
  end.

(** [self.masterChannelList[m]] *)
Definition mcl_getitem (m : master_name) : M (list string) :=
  s ← get_self; h ← get_heap;
  match deref_index h (masterChannelList s) !! m with
  | Some l => mret l
  | None => raise KeyError
  end.

(** [list.remove(x)]: the first occurrence goes. *)
Fixpoint list_remove (x : string) (l : list string) : option (list string) :=
  match l with
  | [] => None
  | y :: l' =>
      if decide (x = y) then Some l'
      else cons y <$> list_remove x l'
  end.

(** [self.masterChannelList[m].append(x)] *)
Definition mcl_append (m : master_name) (x : string) : M unit :=
  l ← mcl_getitem m; mcl_setitem m (l ++ [x]).

(** [self.masterChannelList[m].remove(x)] *)
Definition mcl_remove (m : master_name) (x : string) : M unit :=
  l ← mcl_getitem m;
  match list_remove x l with
  | Some l' => mcl_setitem m l'
  | None => raise ValueError
  end.

(** ** The class [mdf_skeleton] *)

(** [__init__] with [fileName=None]: a new index, a new metadata
    dictionary with the seven keys, an empty store. *)
Definition __init__ (filterChannelNames : bool) (h : heap) : mdf_skeleton * heap :=
  let mcl := fresh (dom (indexes h)) in
  let h := set_indexes <[mcl := ∅]> h in
  let md := fresh (dom (dicts h)) in
  let meta : pydict :=
    <["date" := VStr ""]> (<["time" := VStr ""]> (<["comment" := VStr ""]>
    (<["subject" := VStr ""]> (<["project" := VStr ""]>
    (<["organisation" := VStr ""]> (<["author" := VStr ""]> ∅)))))) in
  let h := set_dicts <[md := meta]> h in
  (Mdf ∅ mcl false md 300 filterChannelNames false false None, h).

Definition _setChannel (channelName : string) (item : pyval) (field : string) : M unit :=
  b ← self_contains channelName;
  if b : bool then
    r ← self_getitem channelName; dict_setitem r field item
  else raise KeyError.

Definition setChannelUnit (channelName : string) (unit : pyval) : M Datatypes.unit :=
  _setChannel channelName unit unitField.

Definition setChannelData (channelName : string) (data : pyval) : M unit :=
  _setChannel channelName data dataField.

Definition setChannelDesc (channelName : string) (desc : pyval) : M unit :=
  _setChannel channelName desc descriptionField.

Definition setChannelMaster (channelName : string) (master : pyval) : M unit :=
  _setChannel channelName master masterField.

Definition setChannelMasterType (channelName : string) (masterType : pyval) : M unit :=
  _setChannel channelName masterType masterTypeField.

Definition setChannelConversion (channelName : string) (conversion : pyval) : M unit :=
  _setChannel channelName conversion conversionField.

Definition setChannelAttachment (channelName : string) (attachment : pyval) : M unit :=
  _setChannel channelName attachment attachmentField.

Definition getChannel (channelName : string) : M pyval :=
  b ← self_contains channelName;
  if b : bool then r ← self_getitem channelName; mret (VRef r)
  else mret VNone.

Definition _getChannelField (channelName : string) (field : string) : M pyval :=
  channel ← getChannel channelName;
  b ← self_contains channelName;
  if b : bool then
    b' ← py_contains field channel;
    if b' : bool then py_getitem channel field
    else mret (VStr "")
  else mret VNone.

Definition getChannelUnit (channelName : string) : M pyval :=
  _getChannelField channelName unitField.

Definition getChannelDesc (channelName : string) : M pyval :=
  _getChannelField channelName descriptionField.

Definition getChannelMaster (channelName : string) : M pyval :=
  _getChannelField channelName masterField.

Definition getChannelMasterType (channelName : string) : M pyval :=
  _getChannelField channelName masterTypeField.

Definition getChannelConversion (channelName : string) : M pyval :=
  _getChannelField channelName conversionField.

(** [conversion[k]] on the conversion description passed to
    [add_channel]. *)
Definition arg_getitem (conversion : pydict) (k : string) : M pyval :=
  py_getitem (VDict conversion) k.

(** [self[channel_name]['conversion'][k] = v].  The conversion dictionary
    of a record is created by [add_channel] and referenced from the record
    only: it is held by value in its field. *)
Definition conv_setitem (channel_name k : string) (v : pyval) : M unit :=
  r ← self_getitem channel_name;
  c ← dict_getitem r conversionField;
  match c with
  | VDict d => dict_setitem r conversionField (VDict (<[k := v]> d))
  | _ => raise TypeError
  end.

(** [self[channel_name]['conversion']['parameters'][k] = v] *)
Definition conv_param_setitem (channel_name k : string) (v : pyval) : M unit :=
  r ← self_getitem channel_name;
  c ← dict_getitem r conversionField;
  p ← py_getitem c "parameters";
  match p with
  | VDict d => conv_setitem channel_name "parameters" (VDict (<[k := v]> d))
  | _ => raise TypeError
  end.

(** [self[channel_name]['conversion']['parameters'][k]] *)
Definition conv_param_getitem (channel_name k : string) : M pyval :=
  r ← self_getitem channel_name;
  c ← dict_getitem r conversionField;
  p ← py_getitem c "parameters";
  py_getitem p k.

(** The key [add_channel] registers a channel under. *)
Definition key_of (s : mdf_skeleton) (dataGroup : Z) (channel_name : string) : string :=
  if bool_decide (is_Some (items s !! channel_name))
  then channel_name +:+ "_" +:+ pretty dataGroup
  else channel_name.

Definition add_channel (dataGroup : Z) (channel_name : string) (data : pyval)
    (master_channel : master_name) (master_type unit description : pyval)
    (conversion : option pydict) : M Datatypes.unit :=
  s ← get_self;
  let channel_name := key_of s dataGroup channel_name in
  r ← new_dict; self_setitem channel_name r;;
  setChannelData channel_name data;;
  setChannelUnit channel_name unit;;
  setChannelDesc channel_name description;;
  setChannelMaster channel_name (master_val master_channel);;
  b ← mcl_contains master_channel;
  (if b : bool then mret () else mcl_setitem master_channel []);;
  mcl_append master_channel channel_name;;
  (if MDFVersionNumber s <? 400
   then setChannelMasterType channel_name (VInt 1)
   else setChannelMasterType channel_name master_type);;
  match conversion with
  | None => mret ()
  | Some conversion =>
      r ← self_getitem channel_name;
      dict_setitem r conversionField (VDict ∅);;
      t ← arg_getitem conversion "cc_type";
      conv_setitem channel_name "type" t;;
      conv_setitem channel_name "parameters" (VDict ∅);;
      if MDFVersionNumber s <? 400 then
        (if bool_decide (is_Some (conversion !! "conversion"))
         then p ← arg_getitem conversion "conversion";
              conv_setitem channel_name "parameters" p
         else mret ());;
        t ← arg_getitem conversion "cc_type";
        if py_eq_num t (NInt 0) then
          p2 ← conv_param_getitem channel_name "P2";
          if py_eq_num p2 (NFloat float_one) then
            p1 ← conv_param_getitem channel_name "P1";
            if py_in_nums p1 [NFloat float_zero; NFloat float_neg_zero] then
              r ← self_getitem channel_name;
              dict_pop r conversionField;; mret ()
            else mret ()
          else mret ()
        else mret ()
      else
        (if bool_decide (is_Some (conversion !! "cc_val"))
         then v ← arg_getitem conversion "cc_val";
              conv_param_setitem channel_name "cc_val" v
         else mret ());;
        (if bool_decide (is_Some (conversion !! "cc_ref"))
         then v ← arg_getitem conversion "cc_ref";
              conv_param_setitem channel_name "cc_ref" v
         else mret ())
  end.

Definition remove_channel (channel_name : string) : M pyval :=
  m ← getChannelMaster channel_name;
  k ← as_master m;
  mcl_remove k channel_name;;
  r ← self_pop channel_name;
  mret (VRef r).

Definition _remove_channel_field (channelName : string) (field : string) : M pyval :=
  channel ← getChannel channelName;
  b ← py_contains field channel;
  if b : bool then
    r ← self_getitem channelName; dict_pop r field
  else mret VNone.

Definition remove_channel_conversion (channelName : string) : M pyval :=
  _remove_channel_field channelName conversionField.

(** An omitted keyword argument takes its default, the empty string. *)
Definition kwarg (a : option pyval) : pyval := default (VStr "") a.

Definition add_metadata (author organisation project subject comment date time : option pyval)
    : M unit :=
  s ← get_self;
  let md := file_metadata s in
  dict_setitem md "author" (kwarg author);;
  dict_setitem md "organisation" (kwarg organisation);;
  dict_setitem md "project" (kwarg project);;
  dict_setitem md "subject" (kwarg subject);;
  dict_setitem md "comment" (kwarg comment);;
  dict_setitem md "date" (kwarg date);;
  dict_setitem md "time" (kwarg time).

(** Attribute assignments on the new object of [copy]. *)
Definition set_multiProc (v : bool) (s : mdf_skeleton) : mdf_skeleton :=
  Mdf (items s) (masterChannelList s) v (file_metadata s)
      (MDFVersionNumber s) (filterChannelNames s) (convert_tables s)
      (_pandasframe s) (fileName s).

Definition set_fileName (v : option string) (s : mdf_skeleton) : mdf_skeleton :=
  Mdf (items s) (masterChannelList s) (multiProc s) (file_metadata s)
      (MDFVersionNumber s) (filterChannelNames s) (convert_tables s)
      (_pandasframe s) v.

Definition set_masterChannelList (v : loc) (s : mdf_skeleton) : mdf_skeleton :=
  Mdf (items s) v (multiProc s) (file_metadata s)
      (MDFVersionNumber s) (filterChannelNames s) (convert_tables s)
      (_pandasframe s) (fileName s).

Definition set_file_metadata (v : loc) (s : mdf_skeleton) : mdf_skeleton :=
  Mdf (items s) (masterChannelList s) (multiProc s) v
      (MDFVersionNumber s) (filterChannelNames s) (convert_tables s)
      (_pandasframe s) (fileName s).

Definition set_MDFVersionNumber (v : Z) (s : mdf_skeleton) : mdf_skeleton :=
  Mdf (items s) (masterChannelList s) (multiProc s) (file_metadata s)
      v (filterChannelNames s) (convert_tables s)
      (_pandasframe s) (fileName s).

Definition set_filterChannelNames (v : bool) (s : mdf_skeleton) : mdf_skeleton :=
  Mdf (items s) (masterChannelList s) (multiProc s) (file_metadata s)
      (MDFVersionNumber s) v (convert_tables s)
      (_pandasframe s) (fileName s).

Definition set_convert_tables (v : bool) (s : mdf_skeleton) : mdf_skeleton :=
  Mdf (items s) (masterChannelList s) (multiProc s) (file_metadata s)
      (MDFVersionNumber s) (filterChannelNames s) v
      (_pandasframe s) (fileName s).

(** [copy]: a new object from [__init__], seven attribute assignments,
    then [yop[channel] = self[channel]] for every key of [self].  The loop
    runs over the pairs of [self]: [self[channel]] is the second
    component. *)
Definition copy : M mdf_skeleton :=
  self ← get_self;
  h ← get_heap;
  let '(yop, h') := __init__ false h in
  modify_heap (λ _, h');;
  let yop := set_multiProc (multiProc self) yop in
  let yop := set_fileName (fileName self) yop in
  let yop := set_masterChannelList (masterChannelList self) yop in
  let yop := set_file_metadata (file_metadata self) yop in
  let yop := set_MDFVersionNumber (MDFVersionNumber self) yop in
  let yop := set_filterChannelNames (filterChannelNames self) yop in
  let yop := set_convert_tables (convert_tables self) yop in
  mret (foldl (λ yop '(channel, r), set_items <[channel := r]> yop)
              yop (map_to_list (items self))).

(** ** Vocabulary of the properties *)

(** The state a method leaves, and its outcome. *)
Definition exec {A : Type} (m : M A) (st : state) : state := (m st).2.

Definition outcome {A : Type} (m : M A) (st : state) : res A := (m st).1.

(** The field-scoped setters and getters of the class. *)
Definition setters : list (string → pyval → M unit) :=
  [setChannelUnit; setChannelData; setChannelDesc; setChannelMaster;
   setChannelMasterType; setChannelConversion; setChannelAttachment].

Definition getters : list (string → M pyval) :=
  [getChannelUnit; getChannelDesc; getChannelMaster; getChannelMasterType;
   getChannelConversion].

(** The index of a store, its members (all lists, one after the other)
    and the keys of the store. *)
Definition index_of (st : state) : mcl_dict :=
  deref_index st.2 (masterChannelList st.1).

Definition index_members (st : state) : list string :=
  mjoin (map_to_list (index_of st)).*2.

Definition keys (st : state) : list string :=
  (map_to_list (items st.1)).*1.

(** Index and records agree: the members of the index, counted with
    multiplicity, are the keys of the store. *)
Definition consistent (st : state) : Prop :=
  index_members st ≡ₚ keys st.

(** [x] occurs exactly once in [l]. *)
Definition occurs_once (x : string) (l : list string) : Prop :=
  ∃ l1 l2, l = l1 ++ [x] ++ l2 ∧ (x ∉ l1) ∧ (x ∉ l2).

(** The conversion part of [add_channel], for a conversion that is not
    [None]: the body of [if conversion is not None], and in it the test
    that drops an identity conversion of the legacy format. *)
Definition legacy_elision (key : string) (conversion : pydict) : M unit :=
  t ← arg_getitem conversion "cc_type";
  if py_eq_num t (NInt 0) then
    p2 ← conv_param_getitem key "P2";
    if py_eq_num p2 (NFloat float_one) then
      p1 ← conv_param_getitem key "P1";
      if py_in_nums p1 [NFloat float_zero; NFloat float_neg_zero] then
        r ← self_getitem key;
        dict_pop r conversionField;; mret ()
      else mret ()
    else mret ()
  else mret ().

Definition attach_conversion (version : Z) (key : string) (conversion : pydict) : M unit :=
  r ← self_getitem key;
  dict_setitem r conversionField (VDict ∅);;
  t ← arg_getitem conversion "cc_type";
  conv_setitem key "type" t;;
  conv_setitem key "parameters" (VDict ∅);;
  if version <? 400 then
    (if bool_decide (is_Some (conversion !! "conversion"))
     then p ← arg_getitem conversion "conversion";
          conv_setitem key "parameters" p
     else mret ());;
    legacy_elision key conversion
  else
    (if bool_decide (is_Some (conversion !! "cc_val"))
     then v ← arg_getitem conversion "cc_val";
          conv_param_setitem key "cc_val" v
     else mret ());;
    (if bool_decide (is_Some (conversion !! "cc_ref"))
     then v ← arg_getitem conversion "cc_ref";
          conv_param_setitem key "cc_ref" v
     else mret ()).

(** The record [register] builds. *)
Definition new_record (data unit description : pyval) (master_channel : master_name)
    (master_type : pyval) : pydict :=
  <[masterTypeField := master_type]> (<[masterField := master_val master_channel]>
  (<[descriptionField := description]> (<[unitField := unit]>
  (<[dataField := data]> ∅)))).

(** The master type [add_channel] stores. *)
Definition stored_master_type (s : mdf_skeleton) (master_type : pyval) : pyval :=
  if MDFVersionNumber s <? 400 then VInt 1 else master_type.

(** The state [add_channel] reaches before it looks at the conversion:
    a new record under [key], and [key] appended to the list of its
    master. *)
Definition registered (key : string) (data unit description : pyval)
    (master_channel : master_name) (master_type : pyval) (st : state) : state :=
  let r := fresh (dom (dicts st.2)) in
  let i := masterChannelList st.1 in
  (set_items <[key := r]> st.1,
   Heap (<[r := new_record data unit description master_channel master_type]> (dicts st.2))
        (<[i := <[master_channel :=
                    default [] (deref_index st.2 i !! master_channel) ++ [key]]>
                  (deref_index st.2 i)]> (indexes st.2))).

(** The parameters of a legacy conversion description: the dictionary
    under ['conversion'], the empty dictionary when the key is absent. *)
Definition params_of (conversion : pydict) : option pydict :=
  match conversion !! "conversion" with
  | Some (VDict ps) => Some ps
  | Some _ => None
  | None => Some ∅
  end.

(** Two heaps that differ at most in the field ['conversion'] of the
    record [r]. *)
Definition same_except (r : loc) (h h' : heap) : Prop :=
  indexes h' = indexes h ∧
  (∀ l, l ≠ r → dicts h' !! l = dicts h !! l) ∧
  (∀ f, f ≠ conversionField → deref h' r !! f = deref h r !! f).

(** A method body that, run on [s], leaves [s] as it is and touches at
    most the conversion of [r]. *)
Definition frames {A : Type} (s : mdf_skeleton) (r : loc) (m : M A) : Prop :=
  ∀ h, (exec m (s, h)).1 = s ∧ same_except r h (exec m (s, h)).2.

(** ** Concrete stores *)

Definition empty_heap : heap := Heap ∅ ∅.

(** [mdf_skeleton()] *)
Definition new_store : state := __init__ false empty_heap.

(** [add_channel(0, "T", [d], "Time")] *)
Definition add_T (d : Z) : M unit :=
  add_channel 0 "T" (VList [VInt d]) (Some "Time") (VInt 1) (VStr "") (VStr "") None.

Definition one_T : state := exec (add_T 1) new_store.
Definition two_T : state := exec (add_T 2) one_T.
Definition three_T : state := exec (add_T 3) two_T.

(** The metadata dictionary after [add_metadata]. *)
Definition metadata_after (a o p s c d t : option pyval) (old : pydict) : pydict :=
  <["time" := kwarg t]> (<["date" := kwarg d]> (<["comment" := kwarg c]>
  (<["subject" := kwarg s]> (<["project" := kwarg p]>
  (<["organisation" := kwarg o]> (<["author" := kwarg a]> old)))))).

(** The conversion dictionary [add_channel] builds for a legacy store from
    the type [t] and the parameters [ps], and what the conversion part
    comes to on the record [r]: the conversion is stored, unless the
    type is 0, [P2] is 1.0 and [P1] is a zero, in which case it is
    removed again; looking up [P2], and [P1] once [P2] is 1.0, raises
    [KeyError] when the parameter is missing. *)
Definition legacy_conversion (t : pyval) (ps : pydict) : pyval :=
  VDict (<["parameters" := VDict ps]> (<["type" := t]> ∅)).

Definition legacy_result (t : pyval) (ps : pydict) (s : mdf_skeleton) (h : heap) (r : loc)
    : res unit * state :=
  let stored :=
    (s, set_dicts <[r := <[conversionField := legacy_conversion t ps]> (deref h r)]> h) in
  let elided :=
    (s, set_dicts <[r := delete conversionField (deref h r)]> h) in
  if py_eq_num t (NInt 0) then
    match ps !! "P2" with
    | None => (Raise KeyError, stored)
    | Some p2 =>
        if py_eq_num p2 (NFloat float_one) then
          match ps !! "P1" with
          | None => (Raise KeyError, stored)
          | Some p1 =>
              if py_in_nums p1 [NFloat float_zero; NFloat float_neg_zero]
              then (Ok (), elided)
              else (Ok (), stored)
          end
        else (Ok (), stored)
    end
  else (Ok (), stored).

(** The binary64 literal [2.0]. *)
Definition float_two : spec_float := S754_finite false 4503599627370496 (-51).

(** [{'cc_type': 0, 'conversion': {'P1': 0.0, 'P2': 1.0}}] *)
Definition identity_conversion : pydict :=
  <["cc_type" := VInt 0]>
    (<["conversion" := VDict (<["P1" := VFloat float_zero]>
                              (<["P2" := VFloat float_one]> ∅))]> ∅).

(** [{'cc_type': 0, 'conversion': {'P2': 2.0}}] *)
Definition slope_only_conversion : pydict :=
  <["cc_type" := VInt 0]>
    (<["conversion" := VDict (<["P2" := VFloat float_two]> ∅)]> ∅).

(** [add_channel(0, "A", [1], "M1")] then [setChannelMaster("A", "M2")]
    on a new store. *)
Definition moved_A : state :=
  exec (setChannelMaster "A" (VStr "M2"))
    (exec (add_channel 0 "A" (VList [VInt 1]) (Some "M1") (VInt 1) (VStr "") (VStr "") None)
       new_store).

(** A call of the mutation contract: [add_channel], [remove_channel], or
    a field-scoped setter, given by the field it sets. *)
Inductive call :=
  | AddChannel (dataGroup : Z) (channel_name : string) (data : pyval)
      (master_channel : master_name) (master_type unit description : pyval)
      (conversion : option pydict)
  | RemoveChannel (channel_name : string)
  | SetChannel (channelName : string) (item : pyval) (field : string).

Definition run_call (c : call) (st : state) : state :=
  match c with
  | AddChannel g n d m mt u desc conv => exec (add_channel g n d m mt u desc conv) st
  | RemoveChannel n => exec (remove_channel n) st
  | SetChannel n v f => exec (_setChannel n v f) st
  end.

Definition run_calls (cs : list call) (st : state) : state :=
  foldl (λ st c, run_call c st) st cs.

(** An [add_channel] whose key, the name or on a collision the suffixed
    name, is not a key of the store yet. *)
Definition takes_free_key (c : call) (st : state) : Prop :=
  match c with
  | AddChannel g n _ _ _ _ _ _ => items st.1 !! key_of st.1 g n = None
  | _ => True
  end.

Fixpoint free_keys (cs : list call) (st : state) : Prop :=
  match cs with
  | [] => True
  | c :: cs => takes_free_key c st ∧ free_keys cs (run_call c st)
  end.

(** [yop = s.copy()] for the store [s] of [one_T], then
    [yop.add_channel(0, "U", [5], "Time")] and
    [yop.setChannelUnit("T", "s")]: the copy with the heap it leaves, and
    the source seen in that heap. *)
Definition copy_of_one_T : state :=
  match copy one_T with
  | (Ok yop, (_, h)) => (yop, h)
  | (Raise _, st) => st
  end.

Definition copy_after_calls : state :=
  exec (setChannelUnit "T" (VStr "s"))
    (exec (add_channel 0 "U" (VList [VInt 5]) (Some "Time") (VInt 1) (VStr "") (VStr "") None)
       copy_of_one_T).

Definition source_after_calls : state := (one_T.1, copy_after_calls.2).

(** ** Vocabulary of the further properties *)

(** Each setter with the field it writes, each getter with the field it
    reads. *)
Definition setter_fields : list ((string → pyval → M unit) * string) :=
  [(setChannelUnit, unitField); (setChannelData, dataField);
   (setChannelDesc, descriptionField); (setChannelMaster, masterField);
   (setChannelMasterType, masterTypeField); (setChannelConversion, conversionField);
   (setChannelAttachment, attachmentField)].

Definition getter_fields : list ((string → M pyval) * string) :=
  [(getChannelUnit, unitField); (getChannelDesc, descriptionField);
   (getChannelMaster, masterField); (getChannelMasterType, masterTypeField);
   (getChannelConversion, conversionField)].

(** The conversion dictionary [add_channel] builds for a store of version
    400 or more: the type, and as parameters the entries [cc_val] and
    [cc_ref] of the description, each if it is there. *)
Definition modern_parameters (conversion : pydict) : pydict :=
  let p := match conversion !! "cc_val" with
           | Some v => <["cc_val" := v]> ∅
           | None => ∅
           end in
  match conversion !! "cc_ref" with
  | Some v => <["cc_ref" := v]> p
  | None => p
  end.

Definition modern_conversion (t : pyval) (conversion : pydict) : pyval :=
  VDict (<["parameters" := VDict (modern_parameters conversion)]> (<["type" := t]> ∅)).

(** The test of the legacy format for an identity conversion: type 0,
    [P2 == 1.0] and [P1] a zero, all three present. *)
Definition is_identity (t : pyval) (ps : pydict) : bool :=
  py_eq_num t (NInt 0) &&
  match ps !! "P2" with
  | Some p2 =>
      py_eq_num p2 (NFloat float_one) &&
      match ps !! "P1" with
      | Some p1 => py_in_nums p1 [NFloat float_zero; NFloat float_neg_zero]
      | None => false
      end
  | None => false
  end.

(** [{'cc_type': 1, 'cc_val': [2, 3]}] and
    [{'cc_type': 1, 'conversion': {'P1': 0.0, 'P2': 1.0}}] *)
Definition modern_description : pydict :=
  <["cc_type" := VInt 1]> (<["cc_val" := VList [VInt 2; VInt 3]]> ∅).

Definition legacy_description : pydict :=
  <["cc_type" := VInt 1]>
    (<["conversion" := VDict (<["P1" := VFloat float_zero]>
                              (<["P2" := VFloat float_one]> ∅))]> ∅).

(** A new store of version 410. *)
Definition new_store_410 : state :=
  (set_MDFVersionNumber 410 new_store.1, new_store.2).

(** A value that cannot be indexed by a string: anything but a
    dictionary. *)
Definition not_a_mapping (v : pyval) : Prop :=
  match v with
  | VDict _ | VRef _ => False
  | _ => True
  end.

(** [{'cc_val': [2, 3]}], a description without a type, and
    [{'cc_type': 0, 'conversion': None}]. *)
Definition untyped_description : pydict :=
  <["cc_val" := VList [VInt 2; VInt 3]]> ∅.

Definition unparsed_description : pydict :=
  <["cc_type" := VInt 0]> (<["conversion" := VNone]> ∅).

(** Every key of the store has a record whose master field names a list
    of the index, and that list holds the key: what [remove_channel]
    relies on. *)
Definition well_indexed (st : state) : Prop :=
  ∀ n r, items st.1 !! n = Some r →
    ∃ m l, deref st.2 r !! masterField = Some (master_val m) ∧
           index_of st !! m = Some l ∧ n ∈ l.

(** A call that does not write the master field of a record: any call
    but [setChannelMaster]. *)
Definition keeps_master (c : call) : Prop :=
  match c with
  | SetChannel _ _ f => f ≠ masterField
  | _ => True
  end.

(** The objects of the store are objects of the heap: every record, the
    index and the metadata dictionary. *)
Definition allocated (st : state) : Prop :=
  (∀ n r, items st.1 !! n = Some r → is_Some (dicts st.2 !! r)) ∧
  is_Some (indexes st.2 !! masterChannelList st.1) ∧
  is_Some (dicts st.2 !! file_metadata st.1).

(** [yop = self.copy()]: the copy, with the heap [copy] leaves. *)
Definition copy_of (st : state) : state :=
  match copy st with
  | (Ok yop, (_, h)) => (yop, h)
  | (Raise _, st) => st
  end.

(** The store object [s] seen in the heap of [st]. *)
Definition seen_in (s : mdf_skeleton) (st : state) : state := (s, st.2).

(** The store shares no object with the heap [h0]: its index, its
    metadata dictionary and its records are no objects of [h0]. *)
Definition separate (st : state) (h0 : heap) : Prop :=
  (masterChannelList st.1 ∉ dom (indexes h0)) ∧
  (file_metadata st.1 ∉ dom (dicts h0)) ∧
  ∀ n r, items st.1 !! n = Some r → r ∉ dom (dicts h0).

(** The heap of [st] holds every object of [h0] as it is in [h0]. *)
Definition extends (h0 : heap) (st : state) : Prop :=
  (∀ l d, dicts h0 !! l = Some d → dicts st.2 !! l = Some d) ∧
  (∀ l i, indexes h0 !! l = Some i → indexes st.2 !! l = Some i).

(** * Properties *)

(** ** Running method bodies *)

Lemma bool_decide_is_Some {A : Type} (o : option A) :
  bool_decide (is_Some o) = match o with Some _ => true | None => false end.
Proof.
  destruct o.
  - apply bool_decide_eq_true_2. eauto.
  - apply bool_decide_eq_false_2. intros [x Hx]. discriminate.
Qed.

(** Unfold the monad and the dictionary primitives, and decide the
    membership tests whose outcome is known. *)
Ltac mcbv :=
  cbv beta iota zeta delta
    [mbind M_bind mret M_ret get_self get_heap modify_heap modify_self raise fst snd
     exec outcome
     self_contains self_getitem self_setitem self_pop new_dict dict_setitem
     dict_contains dict_getitem dict_pop py_contains py_getitem
     mcl_contains mcl_setitem mcl_getitem mcl_append mcl_remove as_master
     arg_getitem conv_setitem conv_param_setitem conv_param_getitem];
  rewrite ?bool_decide_is_Some.

Ltac mrun :=
  repeat (mcbv;
          try match goal with
              | H : ?x = _ |- context [match ?x with _ => _ end] => rewrite H
              end).

Lemma _setChannel_run n v f s h :
  _setChannel n v f (s, h) =
  match items s !! n with
  | Some r => (Ok (), (s, set_dicts <[r := <[f := v]> (deref h r)]> h))
  | None => (Raise KeyError, (s, h))
  end.
Proof. unfold _setChannel. mcbv. destruct (items s !! n) eqn:E; mrun; reflexivity. Qed.

Lemma getChannel_run n s h :
  getChannel n (s, h) =
  (Ok (match items s !! n with Some r => VRef r | None => VNone end), (s, h)).
Proof. unfold getChannel. mcbv. destruct (items s !! n) eqn:E; mrun; reflexivity. Qed.

Lemma _getChannelField_run n f s h :
  _getChannelField n f (s, h) =
  match items s !! n with
  | Some r => (Ok (default (VStr "") (deref h r !! f)), (s, h))
  | None => (Ok VNone, (s, h))
  end.
Proof.
  unfold _getChannelField, getChannel. mcbv.
  destruct (items s !! n) eqn:E; mrun; [|reflexivity].
  destruct (deref h l !! f) eqn:E'; mrun; reflexivity.
Qed.

Lemma _remove_channel_field_run n f s h :
  _remove_channel_field n f (s, h) =
  match items s !! n with
  | Some r =>
      match deref h r !! f with
      | Some v => (Ok v, (s, set_dicts <[r := delete f (deref h r)]> h))
      | None => (Ok VNone, (s, h))
      end
  | None => (Raise TypeError, (s, h))
  end.
Proof.
  unfold _remove_channel_field, getChannel. mcbv.
  destruct (items s !! n) eqn:E; mrun; [|reflexivity].
  destruct (deref h l !! f) eqn:E'; mrun; reflexivity.
Qed.

(** ** Absent records and absent fields (C5) *)

Lemma setter_missing (set : string → pyval → M unit) name v s h :
  set ∈ setters → items s !! name = None →
  set name v (s, h) = (Raise KeyError, (s, h)).
Proof.
  intros Hin Hnone. unfold setters in Hin.
  repeat (apply elem_of_cons in Hin as [-> | Hin]);
    [ .. | by apply elem_of_nil in Hin ];
    unfold setChannelUnit, setChannelData, setChannelDesc, setChannelMaster,
      setChannelMasterType, setChannelConversion, setChannelAttachment;
    rewrite _setChannel_run, Hnone; reflexivity.
Qed.

Lemma getter_missing (get : string → M pyval) name s h :
  get ∈ getters → items s !! name = None →
  get name (s, h) = (Ok VNone, (s, h)).
Proof.
  intros Hin Hnone. unfold getters in Hin.
  repeat (apply elem_of_cons in Hin as [-> | Hin]);
    [ .. | by apply elem_of_nil in Hin ];
    unfold getChannelUnit, getChannelDesc, getChannelMaster,
      getChannelMasterType, getChannelConversion;
    rewrite _getChannelField_run, Hnone; reflexivity.
Qed.

(** C5. For a name that is no key of the store, every field-scoped setter
    raises [KeyError] (the "not found" error) and leaves the store and the
    heap as they were, and every field-scoped getter returns [None], which
    is not the empty string, without raising.  For a key of the store whose
    record lacks the unit or the description (or any field asked for), the
    getter of that field returns the empty string. *)
Theorem C5_absence_setters_raise_getters_return s h name :
  (items s !! name = None →
     (∀ set v, set ∈ setters → set name v (s, h) = (Raise KeyError, (s, h))) ∧
     (∀ get, get ∈ getters → get name (s, h) = (Ok VNone, (s, h))) ∧
     VNone ≠ VStr "") ∧
  (∀ r, items s !! name = Some r →
     (deref h r !! unitField = None →
        getChannelUnit name (s, h) = (Ok (VStr ""), (s, h))) ∧
     (deref h r !! descriptionField = None →
        getChannelDesc name (s, h) = (Ok (VStr ""), (s, h))) ∧
     (∀ f, deref h r !! f = None →
        _getChannelField name f (s, h) = (Ok (VStr ""), (s, h)))).
Proof.
  split.
  - intros Hnone. split; [|split].
    + intros set v Hin. by apply setter_missing.
    + intros get Hin. by apply getter_missing.
    + discriminate.
  - intros r Hr. unfold getChannelUnit, getChannelDesc.
    rewrite !_getChannelField_run, Hr.
    split; [|split]; [intros -> | intros -> | intros f Hf]; try reflexivity.
    by rewrite _getChannelField_run, Hr, Hf.
Qed.

Lemma C5_witness :
  items new_store.1 !! "X" = None ∧
  setChannelUnit "X" (VStr "m") new_store = (Raise KeyError, new_store) ∧
  getChannelUnit "X" new_store = (Ok VNone, new_store).
Proof.
  assert (Hnone : items new_store.1 !! "X" = None) by reflexivity.
  destruct (C5_absence_setters_raise_getters_return new_store.1 new_store.2 "X")
    as [H _].
  destruct (H Hnone) as (Hset & Hget & _).
  split; [exact Hnone|]. split.
  - apply (Hset setChannelUnit (VStr "m")). unfold setters. apply elem_of_cons. by left.
  - apply (Hget getChannelUnit). unfold getters. apply elem_of_cons. by left.
Defined.

(** ** Removal of one field (C9) *)

(** [remove_channel_conversion] on a record that has a conversion removes
    and returns it; on a record without one it returns [None] and changes
    nothing; on a name that is no key it raises [TypeError], from the
    membership test on the [None] that [getChannel] returned. *)
Lemma remove_channel_conversion_run n s h :
  remove_channel_conversion n (s, h) =
  match items s !! n with
  | Some r =>
      match deref h r !! conversionField with
      | Some v => (Ok v, (s, set_dicts <[r := delete conversionField (deref h r)]> h))
      | None => (Ok VNone, (s, h))
      end
  | None => (Raise TypeError, (s, h))
  end.
Proof. apply _remove_channel_field_run. Qed.

(** C9, at the failing input: on a new store, which has no channel ["X"],
    [remove_channel_conversion("X")] and [_remove_channel_field("X", f)]
    raise [TypeError]; they are no silent no-op. *)
Theorem C9_remove_field_of_absent_record_raises :
  remove_channel_conversion "X" new_store = (Raise TypeError, new_store) ∧
  ∀ f, _remove_channel_field "X" f new_store = (Raise TypeError, new_store).
Proof.
  split; [|intros f]; unfold remove_channel_conversion;
    destruct new_store as [s h] eqn:E; rewrite _remove_channel_field_run;
    injection E as <- <-; reflexivity.
Qed.

(** ** File metadata (C8) *)

Lemma deref_insert h l (d : pydict) : deref (set_dicts <[l := d]> h) l = d.
Proof. unfold deref, set_dicts. simpl. by rewrite lookup_insert_eq. Qed.

Lemma deref_insert_ne h l l' (d : pydict) :
  l ≠ l' → deref (set_dicts <[l := d]> h) l' = deref h l'.
Proof. intros Hne. unfold deref, set_dicts. simpl. by rewrite lookup_insert_ne. Qed.

Lemma set_dicts_insert_insert h l (d d' : pydict) :
  set_dicts <[l := d']> (set_dicts <[l := d]> h) = set_dicts <[l := d']> h.
Proof. unfold set_dicts. simpl. by rewrite insert_insert_eq. Qed.

Lemma add_metadata_run a o p s c d t self h :
  add_metadata a o p s c d t (self, h) =
  (Ok (), (self, set_dicts <[file_metadata self :=
                   metadata_after a o p s c d t (deref h (file_metadata self))]> h)).
Proof.
  unfold add_metadata. mcbv.
  rewrite !deref_insert, !set_dicts_insert_insert. reflexivity.
Qed.

Lemma metadata_after_idem a o p s c d t old :
  metadata_after a o p s c d t (metadata_after a o p s c d t old) =
  metadata_after a o p s c d t old.
Proof.
  apply map_eq. intros k. unfold metadata_after.
  destruct (decide (k = "time")) as [->|?]; [by simplify_map_eq|].
  destruct (decide (k = "date")) as [->|?]; [by simplify_map_eq|].
  destruct (decide (k = "comment")) as [->|?]; [by simplify_map_eq|].
  destruct (decide (k = "subject")) as [->|?]; [by simplify_map_eq|].
  destruct (decide (k = "project")) as [->|?]; [by simplify_map_eq|].
  destruct (decide (k = "organisation")) as [->|?]; [by simplify_map_eq|].
  destruct (decide (k = "author")) as [->|?]; by simplify_map_eq.
Qed.

(** C8. [add_metadata] never raises; afterwards each of the seven
    metadata fields holds its argument, or the empty string when the
    argument was omitted; and a second call with the same arguments leaves
    the state the first call produced. *)
Theorem C8_add_metadata_overwrites_idempotent a o p s c d t (st : state) :
  let st' := exec (add_metadata a o p s c d t) st in
  let md := deref st'.2 (file_metadata st'.1) in
  outcome (add_metadata a o p s c d t) st = Ok () ∧
  md !! "author" = Some (default (VStr "") a) ∧
  md !! "organisation" = Some (default (VStr "") o) ∧
  md !! "project" = Some (default (VStr "") p) ∧
  md !! "subject" = Some (default (VStr "") s) ∧
  md !! "comment" = Some (default (VStr "") c) ∧
  md !! "date" = Some (default (VStr "") d) ∧
  md !! "time" = Some (default (VStr "") t) ∧
  add_metadata a o p s c d t st' = (Ok (), st').
Proof.
  destruct st as [self h]. unfold exec, outcome. rewrite add_metadata_run.
  cbn [fst snd]. rewrite deref_insert.
  split; [reflexivity|].
  repeat (split; [unfold metadata_after, kwarg; by simplify_map_eq|]).
  rewrite add_metadata_run, deref_insert, set_dicts_insert_insert,
    metadata_after_idem. reflexivity.
Qed.

(** ** The two halves of [add_channel] *)

Lemma items_set_items f s : items (set_items f s) = f (items s).
Proof. reflexivity. Qed.

Lemma masterChannelList_set_items f s :
  masterChannelList (set_items f s) = masterChannelList s.
Proof. reflexivity. Qed.

Lemma deref_index_set_dicts f h l : deref_index (set_dicts f h) l = deref_index h l.
Proof. reflexivity. Qed.

Lemma deref_index_insert (h : heap) (l : loc) (d : mcl_dict) : deref_index (set_indexes <[l := d]> h) l = d.
Proof. unfold deref_index, set_indexes. simpl. by rewrite lookup_insert_eq. Qed.

Lemma deref_set_indexes f h l : deref (set_indexes f h) l = deref h l.
Proof. reflexivity. Qed.

Lemma set_indexes_insert_insert (h : heap) (l : loc) (d d' : mcl_dict) :
  set_indexes <[l := d']> (set_indexes <[l := d]> h) = set_indexes <[l := d']> h.
Proof. unfold set_indexes. simpl. by rewrite insert_insert_eq. Qed.

Lemma add_channel_run g n data m mt u desc conv s h :
  add_channel g n data m mt u desc conv (s, h) =
  match conv with
  | None => mret ()
  | Some c => attach_conversion (MDFVersionNumber s) (key_of s g n) c
  end (registered (key_of s g n) data u desc m (stored_master_type s mt) (s, h)).
Proof.
  unfold add_channel, setChannelData, setChannelUnit, setChannelDesc, setChannelMaster,
    setChannelMasterType.
  match goal with
  | |- context [match conv with Some c => @?b c | None => ?a end] =>
      set (K := match conv with Some c => b c | None => a end)
  end.
  assert (HK : K = match conv with
                   | None => mret ()
                   | Some c => attach_conversion (MDFVersionNumber s) (key_of s g n) c
                   end) by (subst K; destruct conv; reflexivity).
  clearbody K. subst K.
  set (K := match conv with
            | None => mret ()
            | Some c => attach_conversion (MDFVersionNumber s) (key_of s g n) c
            end).
  set (r := fresh (dom (dicts h))).
  mcbv. fold r.
  rewrite _setChannel_run, items_set_items, lookup_insert_eq. mcbv.
  rewrite _setChannel_run, items_set_items, lookup_insert_eq. mcbv.
  rewrite _setChannel_run, items_set_items, lookup_insert_eq. mcbv.
  rewrite _setChannel_run, items_set_items, lookup_insert_eq. mcbv.
  rewrite !deref_insert, !set_dicts_insert_insert.
  rewrite masterChannelList_set_items, deref_index_set_dicts.
  assert (Hmt : ∀ st,
    (if MDFVersionNumber s <? 400
     then _setChannel (key_of s g n) (VInt 1) masterTypeField
     else _setChannel (key_of s g n) mt masterTypeField) st =
    _setChannel (key_of s g n) (stored_master_type s mt) masterTypeField st).
  { intros st. unfold stored_master_type. by destruct (MDFVersionNumber s <? 400). }
  destruct (deref_index h (masterChannelList s) !! m) as [l|] eqn:El; mcbv;
    rewrite ?masterChannelList_set_items, ?deref_index_set_dicts, ?deref_index_insert,
      ?El, ?lookup_insert_eq; mcbv;
    rewrite ?masterChannelList_set_items, ?deref_index_set_dicts, ?deref_index_insert,
      ?set_indexes_insert_insert, ?insert_insert_eq;
    rewrite Hmt, _setChannel_run, items_set_items, lookup_insert_eq;
    rewrite ?deref_set_indexes, ?deref_insert;
    unfold registered; cbn [fst snd]; rewrite El; fold r;
    f_equal; f_equal;
    unfold set_dicts, set_indexes; cbn [dicts indexes];
    rewrite insert_insert_eq; reflexivity.
Qed.

(** ** What the conversion part may touch *)

Lemma same_except_refl r h : same_except r h h.
Proof. by repeat split. Qed.

Lemma same_except_trans r h1 h2 h3 :
  same_except r h1 h2 → same_except r h2 h3 → same_except r h1 h3.
Proof.
  intros (Hi & Hd & Hf) (Hi' & Hd' & Hf'). repeat split.
  - by rewrite Hi'.
  - intros l Hl. by rewrite Hd', Hd.
  - intros f Hne. by rewrite Hf', Hf.
Qed.

Lemma same_except_field r h (d : pydict) :
  (∀ f, f ≠ conversionField → d !! f = deref h r !! f) →
  same_except r h (set_dicts <[r := d]> h).
Proof.
  intros Hd. repeat split.
  - intros l Hl. unfold set_dicts. simpl. by rewrite lookup_insert_ne.
  - intros f Hf. rewrite deref_insert. by apply Hd.
Qed.

Section frames.
Context (s : mdf_skeleton) (r : loc).

Lemma frames_pure {A : Type} (m : M A) :
  (∀ h, exec m (s, h) = (s, h)) → frames s r m.
Proof. intros Hm h. rewrite Hm. split; [done | apply same_except_refl]. Qed.

Lemma frames_ret {A : Type} (a : A) : frames s r (mret a).
Proof. by apply frames_pure. Qed.

Lemma frames_raise {A : Type} (e : exn) : frames s r (raise e : M A).
Proof. by apply frames_pure. Qed.

Lemma frames_bind {A B : Type} (m : M A) (f : A → M B) :
  frames s r m → (∀ a, frames s r (f a)) → frames s r (m ≫= f).
Proof.
  intros Hm Hf h. specialize (Hm h). revert Hm.
  unfold exec, mbind, M_bind.
  destruct (m (s, h)) as [[a|e] [s1 h1]]; cbn [fst snd]; intros [-> Hh]; [|done].
  destruct (Hf a h1) as [Hs Hh1]. unfold exec in Hs, Hh1.
  split; [done | by eapply same_except_trans].
Qed.

Lemma frames_if {A : Type} (b : bool) (m1 m2 : M A) :
  frames s r m1 → frames s r m2 → frames s r (if b then m1 else m2).
Proof. by destruct b. Qed.

Lemma frames_self_getitem key : frames s r (self_getitem key).
Proof.
  apply frames_pure. intros h. unfold exec, self_getitem. mcbv.
  by destruct (items s !! key).
Qed.

Lemma frames_py_getitem v k : frames s r (py_getitem v k).
Proof.
  apply frames_pure. intros h. unfold exec, py_getitem, dict_getitem.
  destruct v; mcbv; try reflexivity.
  - by destruct (d !! k).
  - by destruct (deref h l !! k).
Qed.

Lemma frames_dict_getitem d k : frames s r (dict_getitem d k).
Proof. apply (frames_py_getitem (VRef d) k). Qed.

Lemma frames_dict_setitem v : frames s r (dict_setitem r conversionField v).
Proof.
  intros h. unfold exec, dict_setitem. mcbv. split; [done|].
  apply same_except_field. intros f Hf. by rewrite lookup_insert_ne.
Qed.

Lemma frames_dict_pop : frames s r (dict_pop r conversionField).
Proof.
  intros h. unfold exec, dict_pop. mcbv.
  destruct (deref h r !! conversionField); mcbv.
  - split; [done|]. apply same_except_field. intros f Hf. by rewrite lookup_delete_ne.
  - split; [done | apply same_except_refl].
Qed.

Lemma frames_ext {A : Type} (m m' : M A) :
  (∀ h, m (s, h) = m' (s, h)) → frames s r m' → frames s r m.
Proof. intros Heq Hm h. unfold exec. rewrite Heq. apply Hm. Qed.

Context (key : string) (Hkey : items s !! key = Some r).

Lemma frames_self_getitem_bind {A : Type} (f : loc → M A) :
  frames s r (f r) → frames s r (self_getitem key ≫= f).
Proof. apply frames_ext. intros h. mcbv. by rewrite Hkey. Qed.

Lemma frames_conv_setitem k v : frames s r (conv_setitem key k v).
Proof.
  unfold conv_setitem. apply frames_self_getitem_bind.
  apply frames_bind; [apply frames_dict_getitem|].
  intros c. destruct c; try apply frames_raise. apply frames_dict_setitem.
Qed.

Lemma frames_conv_param_setitem k v : frames s r (conv_param_setitem key k v).
Proof.
  unfold conv_param_setitem. apply frames_self_getitem_bind.
  apply frames_bind; [apply frames_dict_getitem|]. intros c.
  apply frames_bind; [apply frames_py_getitem|]. intros p.
  destruct p; try apply frames_raise. apply frames_conv_setitem.
Qed.

Lemma frames_conv_param_getitem k : frames s r (conv_param_getitem key k).
Proof.
  unfold conv_param_getitem. apply frames_self_getitem_bind.
  apply frames_bind; [apply frames_dict_getitem|]. intros c.
  apply frames_bind; [apply frames_py_getitem|]. intros p.
  apply frames_py_getitem.
Qed.

Lemma frames_legacy_elision c : frames s r (legacy_elision key c).
Proof.
  unfold legacy_elision, arg_getitem.
  apply frames_bind; [apply frames_py_getitem|]. intros t.
  apply frames_if; [|apply frames_ret].
  apply frames_bind; [apply frames_conv_param_getitem|]. intros p2.
  apply frames_if; [|apply frames_ret].
  apply frames_bind; [apply frames_conv_param_getitem|]. intros p1.
  apply frames_if; [|apply frames_ret].
  apply frames_self_getitem_bind.
  apply frames_bind; [apply frames_dict_pop|]. intros _. apply frames_ret.
Qed.

Lemma frames_attach_conversion version c :
  frames s r (attach_conversion version key c).
Proof.
  unfold attach_conversion, arg_getitem.
  apply frames_self_getitem_bind.
  apply frames_bind; [apply frames_dict_setitem|]. intros _.
  apply frames_bind; [apply frames_py_getitem|]. intros t.
  apply frames_bind; [apply frames_conv_setitem|]. intros _.
  apply frames_bind; [apply frames_conv_setitem|]. intros _.
  apply frames_if.
  - apply frames_bind; [|intros _; apply frames_legacy_elision].
    apply frames_if; [|apply frames_ret].
    apply frames_bind; [apply frames_py_getitem|]. intros p.
    apply frames_conv_setitem.
  - apply frames_bind; [|intros _]; (apply frames_if; [|apply frames_ret]);
      (apply frames_bind; [apply frames_py_getitem|]); intros v;
      apply frames_conv_param_setitem.
Qed.
End frames.

(** What [add_channel] leaves behind, whether it returns or raises: the
    store with the new key, and a heap that differs from the registered
    one at most in the conversion of the new record. *)
Lemma add_channel_exec g n data m mt u desc conv s h :
  let key := key_of s g n in
  let r := fresh (dom (dicts h)) in
  let reg := registered key data u desc m (stored_master_type s mt) (s, h) in
  let st' := exec (add_channel g n data m mt u desc conv) (s, h) in
  st'.1 = set_items <[key := r]> s ∧
  same_except r reg.2 st'.2.
Proof.
  intros key r reg st'. subst st'. unfold exec. rewrite add_channel_run.
  fold key reg. destruct conv as [c|].
  - assert (Hkey : items reg.1 !! key = Some r).
    { subst reg. unfold registered. cbn [fst snd]. rewrite items_set_items.
      apply lookup_insert_eq. }
    pose proof (frames_attach_conversion reg.1 r key Hkey (MDFVersionNumber s) c reg.2)
      as [Hs Hh].
    unfold exec in Hs, Hh. rewrite <- surjective_pairing in Hs, Hh.
    split; [by rewrite Hs | done].
  - split; [reflexivity | apply same_except_refl].
Qed.

Lemma deref_Heap_insert (ds : gmap loc pydict) ix l d :
  deref (Heap (<[l := d]> ds) ix) l = d.
Proof. unfold deref. simpl. by rewrite lookup_insert_eq. Qed.

(** ** The stored master type (C3) *)

(** C3. After [add_channel], whatever its arguments and whether or not it
    raised while attaching the conversion, [getChannelMasterType] on the
    key the channel was registered under returns 1 when the version of the
    store is below 400, and the [master_type] argument otherwise. *)
Theorem C3_master_type_forced_below_400 g n data m mt u desc conv (st : state) :
  let st' := exec (add_channel g n data m mt u desc conv) st in
  getChannelMasterType (key_of st.1 g n) st' =
  (Ok (if MDFVersionNumber st.1 <? 400 then VInt 1 else mt), st').
Proof.
  destruct st as [s h]. cbn [fst].
  pose proof (add_channel_exec g n data m mt u desc conv s h) as [Hs (_ & _ & Hf)].
  cbv zeta in Hs, Hf |- *.
  set (st' := exec _ _) in *. destruct st' as [s' h'] eqn:Est. cbn [fst snd] in Hs, Hf.
  unfold getChannelMasterType. rewrite _getChannelField_run, Hs, items_set_items,
    lookup_insert_eq.
  rewrite Hf by done. unfold registered. cbn [fst snd].
  rewrite deref_Heap_insert. unfold new_record, stored_master_type.
  by rewrite lookup_insert_eq.
Qed.

(** ** The conversion of the legacy format (C4, C10) *)

Ltac mnorm :=
  repeat (mrun;
          rewrite ?deref_insert, ?set_dicts_insert_insert, ?lookup_insert_eq,
            ?insert_insert_eq, ?delete_insert_eq).

Lemma legacy_elision_run key t ps c s h r :
  items s !! key = Some r →
  c !! "cc_type" = Some t →
  legacy_elision key c
    (s, set_dicts <[r := <[conversionField := legacy_conversion t ps]> (deref h r)]> h) =
  legacy_result t ps s h r.
Proof.
  intros Hkey Ht. unfold legacy_elision, legacy_result, legacy_conversion.
  mnorm.
  destruct (py_eq_num t (NInt 0)); mnorm; [|reflexivity].
  destruct (ps !! "P2") as [p2|] eqn:H2; mnorm; [|reflexivity].
  destruct (py_eq_num p2 (NFloat float_one)); mnorm; [|reflexivity].
  destruct (ps !! "P1") as [p1|] eqn:H1; mnorm; [|reflexivity].
  destruct (py_in_nums p1 _); mnorm; reflexivity.
Qed.

Lemma attach_conversion_legacy_run version key c t ps s h r :
  (version <? 400) = true →
  items s !! key = Some r →
  c !! "cc_type" = Some t →
  params_of c = Some ps →
  attach_conversion version key c (s, h) =
  legacy_result t ps s h r.
Proof.
  intros Hv Hkey Ht Hps. unfold attach_conversion. rewrite Hv.
  rewrite <- (legacy_elision_run key t ps c s h r Hkey Ht).
  unfold params_of in Hps. unfold legacy_conversion.
  destruct (c !! "conversion") as [p|] eqn:Hc.
  - destruct p; try discriminate. injection Hps as ->.
    mnorm. reflexivity.
  - injection Hps as <-. mnorm. reflexivity.
Qed.

Lemma registered_key key data u desc m mt s h :
  items (registered key data u desc m mt (s, h)).1 !! key = Some (fresh (dom (dicts h))).
Proof. unfold registered. cbn [fst snd]. rewrite items_set_items. apply lookup_insert_eq. Qed.

(** Both zeros, and the integer 0, pass the test on [P1]; the integer 1
    passes the test on [P2]. *)
Lemma identity_parameters :
  py_in_nums (VFloat float_zero) [NFloat float_zero; NFloat float_neg_zero] = true ∧
  py_in_nums (VFloat float_neg_zero) [NFloat float_zero; NFloat float_neg_zero] = true ∧
  py_in_nums (VInt 0) [NFloat float_zero; NFloat float_neg_zero] = true ∧
  py_eq_num (VFloat float_one) (NFloat float_one) = true ∧
  py_eq_num (VInt 1) (NFloat float_one) = true ∧
  py_eq_num (VFloat float_two) (NFloat float_one) = false.
Proof. repeat split; reflexivity. Qed.

(** [add_channel] on a legacy store, for a conversion that has a type and
    whose parameters are a dictionary (or are left out). *)
Lemma add_channel_legacy_run g n data m mt u desc c t ps s h :
  MDFVersionNumber s < 400 →
  c !! "cc_type" = Some t →
  params_of c = Some ps →
  let reg := registered (key_of s g n) data u desc m (stored_master_type s mt) (s, h) in
  add_channel g n data m mt u desc (Some c) (s, h) =
  legacy_result t ps reg.1 reg.2 (fresh (dom (dicts h))).
Proof.
  intros Hv Ht Hps reg. rewrite add_channel_run. fold reg.
  rewrite (surjective_pairing reg).
  apply attach_conversion_legacy_run; [by apply Z.ltb_lt | | done | done].
  apply registered_key.
Qed.

(** C4. On a store whose version is below 400, [add_channel] with a
    conversion of type 0 whose parameters have [P2 == 1.0] and [P1] equal
    to [0.0] or [-0.0] returns, leaves the record of the channel without a
    conversion field, and [getChannelConversion] on the channel returns
    the empty string, the result for an absent field. *)
Theorem C4_identity_conversion_not_stored g n data m mt u desc c t ps p1 p2 (st : state) :
  MDFVersionNumber st.1 < 400 →
  c !! "cc_type" = Some t →
  py_eq_num t (NInt 0) = true →
  c !! "conversion" = Some (VDict ps) →
  ps !! "P2" = Some p2 →
  py_eq_num p2 (NFloat float_one) = true →
  ps !! "P1" = Some p1 →
  py_in_nums p1 [NFloat float_zero; NFloat float_neg_zero] = true →
  let key := key_of st.1 g n in
  let st' := exec (add_channel g n data m mt u desc (Some c)) st in
  outcome (add_channel g n data m mt u desc (Some c)) st = Ok () ∧
  (∃ r, items st'.1 !! key = Some r ∧ deref st'.2 r !! conversionField = None) ∧
  getChannelConversion key st' = (Ok (VStr ""), st').
Proof.
  intros Hv Ht Ht0 Hc H2 H21 H1 H10 key st'.
  destruct st as [s h]. cbn [fst] in Hv, key.
  assert (Hps : params_of c = Some ps) by (unfold params_of; by rewrite Hc).
  subst st'. unfold exec, outcome.
  rewrite (add_channel_legacy_run g n data m mt u desc c t ps s h Hv Ht Hps).
  cbv zeta. fold key. unfold legacy_result. rewrite Ht0, H2, H21, H1, H10.
  cbn [fst snd].
  assert (Hr : items (registered key data u desc m (stored_master_type s mt) (s, h)).1 !! key
               = Some (fresh (dom (dicts h)))) by apply registered_key.
  split; [reflexivity|]. split.
  - eexists. split; [exact Hr|]. rewrite deref_insert. apply lookup_delete_eq.
  - unfold getChannelConversion. rewrite _getChannelField_run, Hr, deref_insert,
      lookup_delete_eq. reflexivity.
Qed.

Lemma C4_witness :
  outcome (add_channel 0 "T" (VList [VInt 1]) (Some "Time") (VInt 1) (VStr "") (VStr "")
             (Some identity_conversion)) new_store = Ok () ∧
  getChannelConversion "T"
    (exec (add_channel 0 "T" (VList [VInt 1]) (Some "Time") (VInt 1) (VStr "") (VStr "")
             (Some identity_conversion)) new_store) =
  (Ok (VStr ""),
   exec (add_channel 0 "T" (VList [VInt 1]) (Some "Time") (VInt 1) (VStr "") (VStr "")
           (Some identity_conversion)) new_store).
Proof.
  pose proof (C4_identity_conversion_not_stored 0 "T" (VList [VInt 1]) (Some "Time")
                (VInt 1) (VStr "") (VStr "") identity_conversion (VInt 0)
                (<["P1" := VFloat float_zero]> (<["P2" := VFloat float_one]> ∅))
                (VFloat float_zero) (VFloat float_one) new_store) as H.
  destruct H as (Hok & _ & Hget); try reflexivity.
  split; [exact Hok | exact Hget].
Defined.

(** C10, as amended. On a store whose version is below 400, [add_channel]
    with a conversion of type 0 whose parameters are a dictionary (or are
    left out, which counts as the empty dictionary) looks up [P2], and
    looks up [P1] only when [P2 == 1.0]: it raises [KeyError] exactly when
    [P2] is missing, or [P2] is 1.0 and [P1] is missing, and returns
    otherwise. *)
Theorem C10_type0_reads_P2_then_P1 g n data m mt u desc c t ps (st : state) :
  MDFVersionNumber st.1 < 400 →
  c !! "cc_type" = Some t →
  py_eq_num t (NInt 0) = true →
  params_of c = Some ps →
  outcome (add_channel g n data m mt u desc (Some c)) st =
  match ps !! "P2" with
  | None => Raise KeyError
  | Some p2 =>
      if py_eq_num p2 (NFloat float_one) then
        match ps !! "P1" with
        | None => Raise KeyError
        | Some _ => Ok ()
        end
      else Ok ()
  end.
Proof.
  destruct st as [s h]. cbn [fst]. intros Hv Ht Ht0 Hps. unfold outcome.
  rewrite (add_channel_legacy_run g n data m mt u desc c t ps s h Hv Ht Hps).
  cbv zeta. unfold legacy_result. rewrite Ht0.
  destruct (ps !! "P2") as [p2|]; [|reflexivity].
  destruct (py_eq_num p2 (NFloat float_one)); [|reflexivity].
  destruct (ps !! "P1") as [p1|]; [|reflexivity].
  by destruct (py_in_nums p1 _).
Qed.

Lemma C10_witness :
  outcome (add_channel 0 "T" (VList [VInt 1]) (Some "Time") (VInt 1) (VStr "") (VStr "")
             (Some slope_only_conversion)) new_store = Ok ().
Proof.
  rewrite (C10_type0_reads_P2_then_P1 0 "T" (VList [VInt 1]) (Some "Time") (VInt 1)
             (VStr "") (VStr "") slope_only_conversion (VInt 0)
             (<["P2" := VFloat float_two]> ∅) new_store); reflexivity.
Defined.

(** The statement of C10 fails on a conversion of type 0 that has [P2 =
    2.0] and no [P1]: [add_channel] returns, although the parameters do
    not contain both [P1] and [P2]. *)
Lemma C10_counterexample :
  ¬ (outcome (add_channel 0 "T" (VList [VInt 1]) (Some "Time") (VInt 1) (VStr "") (VStr "")
                (Some slope_only_conversion)) new_store = Ok () →
     ∃ ps, slope_only_conversion !! "conversion" = Some (VDict ps) ∧
           is_Some (ps !! "P1") ∧ is_Some (ps !! "P2")).
Proof.
  intros H. destruct H as (ps & Hps & [p1 Hp1] & _); [by vm_compute|].
  vm_compute in Hps. injection Hps as <-. vm_compute in Hp1. discriminate.
Qed.

(** ** Removal of a channel (C6) *)

Lemma list_remove_once x l1 l2 :
  x ∉ l1 → list_remove x (l1 ++ [x] ++ l2) = Some (l1 ++ l2).
Proof.
  induction l1 as [|y l1 IH]; intros Hx; simpl in *.
  - by rewrite decide_True.
  - apply not_elem_of_cons in Hx as [Hne Hx].
    rewrite decide_False by done. by rewrite (IH Hx).
Qed.

Lemma list_remove_None x l : x ∉ l → list_remove x l = None.
Proof.
  induction l as [|y l IH]; intros Hx; simpl; [done|].
  apply not_elem_of_cons in Hx as [Hne Hx].
  rewrite decide_False by done. by rewrite (IH Hx).
Qed.

(** [remove_channel] on a channel whose record names the master [m], when
    the list of [m] holds the name. *)
Lemma remove_channel_run name r m l l' s h :
  items s !! name = Some r →
  deref h r !! masterField = Some (master_val m) →
  deref_index h (masterChannelList s) !! m = Some l →
  list_remove name l = Some l' →
  remove_channel name (s, h) =
  (Ok (VRef r),
   (set_items (delete name) s,
    set_indexes <[masterChannelList s := <[m := l']> (deref_index h (masterChannelList s))]> h)).
Proof.
  intros Hr Hm Hl Hl'. unfold remove_channel, getChannelMaster.
  mcbv. rewrite _getChannelField_run, Hr, Hm. cbn [default from_option id].
  destruct m as [m|]; cbn [master_val]; mrun; reflexivity.
Qed.

(** C6, as amended. When the record of [name] names a master whose list
    holds [name] exactly once, and no other list of the index holds
    [name], [remove_channel(name)] returns the record of the channel and
    leaves its contents alone; afterwards [getChannel(name)] returns
    [None] and no list of the index holds [name]. *)
Theorem C6_remove_channel_of_indexed_channel name r m l (st : state) :
  items st.1 !! name = Some r →
  deref st.2 r !! masterField = Some (master_val m) →
  index_of st !! m = Some l →
  occurs_once name l →
  (∀ m' l', m' ≠ m → index_of st !! m' = Some l' → name ∉ l') →
  let st' := exec (remove_channel name) st in
  outcome (remove_channel name) st = Ok (VRef r) ∧
  deref st'.2 r = deref st.2 r ∧
  getChannel name st' = (Ok VNone, st') ∧
  (∀ m' l', index_of st' !! m' = Some l' → name ∉ l').
Proof.
  intros Hr Hm Hl (l1 & l2 & -> & H1 & H2) Hother st'.
  destruct st as [s h]. unfold index_of in *. cbn [fst snd] in *.
  pose proof (list_remove_once name l1 l2 H1) as Hrm.
  subst st'. unfold exec, outcome.
  rewrite (remove_channel_run name r m _ _ s h Hr Hm Hl Hrm). cbn [fst snd].
  split; [reflexivity|]. split; [reflexivity|]. split.
  - rewrite getChannel_run, items_set_items, lookup_delete_eq. reflexivity.
  - intros m' l'. rewrite masterChannelList_set_items, deref_index_insert.
    destruct (decide (m' = m)) as [->|Hne].
    + rewrite lookup_insert_eq. intros [= <-].
      rewrite elem_of_app. tauto.
    + rewrite lookup_insert_ne by done. by apply Hother.
Qed.

Lemma C6_witness :
  outcome (remove_channel "T") one_T = Ok (VRef 2%positive) ∧
  getChannel "T" (exec (remove_channel "T") one_T) =
  (Ok VNone, exec (remove_channel "T") one_T).
Proof.
  assert (Hidx : index_of one_T = <[Some "Time" := ["T"]]> ∅) by (by vm_compute).
  destruct (C6_remove_channel_of_indexed_channel "T" 2%positive (Some "Time") ["T"] one_T)
    as (Hok & _ & Hget & _).
  - reflexivity.
  - reflexivity.
  - reflexivity.
  - exists [], []. repeat split; apply not_elem_of_nil.
  - intros m' l' Hne. rewrite Hidx, lookup_insert_ne, lookup_empty by done. discriminate.
  - split; [exact Hok | exact Hget].
Defined.

(** The statement of C6 fails after [setChannelMaster]: the store holds
    the channel ["A"], whose master field was set to ["M2"], a master the
    index does not have.  [remove_channel("A")] raises [KeyError], and
    [getChannel("A")] still returns the record afterwards. *)
Lemma C6_counterexample :
  items moved_A.1 !! "A" = Some 2%positive ∧
  outcome (remove_channel "A") moved_A = Raise KeyError ∧
  outcome (getChannel "A") (exec (remove_channel "A") moved_A) = Ok (VRef 2%positive) ∧
  "A" ∈ index_members (exec (remove_channel "A") moved_A).
Proof.
  repeat split; try (by vm_compute).
  assert (H : index_members (exec (remove_channel "A") moved_A) = ["A"]) by (by vm_compute).
  rewrite H. apply elem_of_cons. by left.
Qed.

(** ** Copy *)

Lemma foldl_set_items (l : list (string * loc)) y :
  foldl (λ yop '(channel, r), set_items <[channel := r]> yop) y l =
  set_items (λ m, foldl (λ m '(channel, r), <[channel := r]> m) m l) y.
Proof.
  revert y. induction l as [|[k r] l IH]; intros y; simpl.
  - by destruct y.
  - rewrite IH. reflexivity.
Qed.

Lemma foldl_insert_list_to_map (l : list (string * loc)) (m0 : gmap string loc) :
  NoDup l.*1 →
  foldl (λ m '(channel, r), <[channel := r]> m) m0 l = list_to_map l ∪ m0.
Proof.
  revert m0. induction l as [|[k r] l IH]; intros m0 Hnd; simpl.
  - by rewrite (left_id_L ∅ (∪)).
  - apply NoDup_cons in Hnd as [Hk Hnd]. rewrite (IH _ Hnd).
    rewrite <- insert_union_l. symmetry. apply insert_union_r.
    by apply not_elem_of_list_to_map.
Qed.

Lemma foldl_insert_map_to_list (m : gmap string loc) :
  foldl (λ m '(channel, r), <[channel := r]> m) ∅ (map_to_list m) = m.
Proof.
  rewrite foldl_insert_list_to_map by apply NoDup_fst_map_to_list.
  by rewrite (right_id_L ∅ (∪)), list_to_map_to_list.
Qed.

(** [copy] returns a new store object that has the keys of [self], each
    with the record object [self] has, the index and the metadata object
    of [self], its [multiProc], [fileName], [MDFVersionNumber],
    [filterChannelNames] and [convert_tables], and the [_pandasframe] of a
    new store, false.  [self] is left as it is; the heap gains the two
    objects [__init__] made. *)
Lemma copy_run s h :
  copy (s, h) =
  (Ok (Mdf (items s) (masterChannelList s) (multiProc s) (file_metadata s)
           (MDFVersionNumber s) (filterChannelNames s) (convert_tables s)
           false (fileName s)),
   (s, (__init__ false h).2)).
Proof.
  unfold copy, __init__. mcbv. rewrite foldl_set_items. unfold set_items. cbn.
  by rewrite foldl_insert_map_to_list.
Qed.

(** The heap after [copy] holds every dictionary and every index it held
    before. *)
Lemma copy_heap s h :
  let h' := (exec copy (s, h)).2 in
  (∀ l d, dicts h !! l = Some d → dicts h' !! l = Some d) ∧
  (∀ l i, indexes h !! l = Some i → indexes h' !! l = Some i).
Proof.
  unfold exec. rewrite copy_run. cbn. split.
  - intros l d Hl. rewrite lookup_insert_ne; [done|].
    intros <-. apply (is_fresh (dom (dicts h))). apply elem_of_dom. eauto.
  - intros l i Hl. rewrite lookup_insert_ne; [done|].
    intros <-. apply (is_fresh (dom (indexes h))). apply elem_of_dom. eauto.
Qed.

(** ** Collisions of names (C1, C2) *)

(** C2, at the failing input: three calls [add_channel(0, "T", [d],
    "Time")] with [d] = 1, 2, 3.  The second call registers its record
    under ["T_0"].  For the third call ["T"] is a key again, and the key it
    uses, ["T_0"], is a key too: the call makes no new key, and the record
    of the second call is replaced by the record of the third. *)
Theorem C2_second_collision_overwrites :
  keys two_T = ["T_0"; "T"] ∧
  outcome (_getChannelField "T_0" dataField) two_T = Ok (VList [VInt 2]) ∧
  key_of two_T.1 0 "T" = "T_0" ∧
  keys three_T = ["T_0"; "T"] ∧
  outcome (_getChannelField "T_0" dataField) three_T = Ok (VList [VInt 3]) ∧
  outcome (getChannel "T_0") two_T ≠ outcome (getChannel "T_0") three_T.
Proof. repeat split; by vm_compute. Qed.

(** C1, at the failing input: after the same three calls the index lists
    ["T_0"] twice while the store has the two keys ["T"] and ["T_0"]; the
    members of the index are not the keys of the store. *)
Theorem C1_index_lists_key_twice :
  index_members three_T = ["T"; "T_0"; "T_0"] ∧
  keys three_T = ["T_0"; "T"] ∧
  ¬ consistent three_T.
Proof.
  assert (Hm : index_members three_T = ["T"; "T_0"; "T_0"]) by (by vm_compute).
  assert (Hk : keys three_T = ["T_0"; "T"]) by (by vm_compute).
  repeat split; [done..|].
  unfold consistent. rewrite Hm, Hk. intros Hp.
  apply Permutation_length in Hp. discriminate.
Qed.

(** ** Index and records, as long as no key is reused *)

Lemma members_insert (idx : mcl_dict) (m : master_name) (l : list string) :
  mjoin (map_to_list (<[m := l]> idx)).*2 ≡ₚ l ++ mjoin (map_to_list (delete m idx)).*2.
Proof.
  rewrite <- insert_delete_eq.
  rewrite map_to_list_insert by apply lookup_delete_eq. reflexivity.
Qed.

Lemma members_lookup (idx : mcl_dict) (m : master_name) :
  mjoin (map_to_list idx).*2 ≡ₚ
  default [] (idx !! m) ++ mjoin (map_to_list (delete m idx)).*2.
Proof.
  destruct (idx !! m) as [l|] eqn:Hl; cbn [default from_option id].
  - rewrite <- (map_to_list_delete idx m l Hl) at 1. reflexivity.
  - by rewrite delete_id.
Qed.

Lemma list_remove_perm x l l' : list_remove x l = Some l' → l ≡ₚ x :: l'.
Proof.
  revert l'. induction l as [|y l IH]; intros l'; simpl; [done|].
  case_decide as Hxy.
  - intros [= <-]. by subst.
  - destruct (list_remove x l) as [l0|]; [|done]. intros [= <-].
    rewrite (IH l0 eq_refl). apply Permutation_swap.
Qed.

Lemma elem_of_keys name s h : name ∈ keys (s, h) ↔ is_Some (items s !! name).
Proof.
  unfold keys. cbn [fst]. rewrite list_elem_of_fmap. split.
  - intros [[k r] [-> Hin]]. apply elem_of_map_to_list in Hin. eauto.
  - intros [r Hr]. exists (name, r). split; [done|]. by apply elem_of_map_to_list.
Qed.

Lemma new_store_consistent : consistent new_store.
Proof. unfold consistent. by vm_compute. Qed.

Lemma add_channel_consistent g n data m mt u desc conv (st : state) :
  consistent st →
  items st.1 !! key_of st.1 g n = None →
  consistent (exec (add_channel g n data m mt u desc conv) st).
Proof.
  destruct st as [s h]. cbn [fst]. intros Hc Hfree.
  pose proof (add_channel_exec g n data m mt u desc conv s h) as [Hs (Hi & _ & _)].
  cbv zeta in Hs, Hi. revert Hs Hi.
  set (st' := exec _ _). destruct st' as [s' h']. cbn [fst snd]. intros -> Hi.
  unfold consistent, index_members, keys, index_of in *. cbn [fst snd] in *.
  rewrite items_set_items, masterChannelList_set_items.
  unfold deref_index at 1. rewrite Hi. unfold registered. cbn [fst snd indexes].
  rewrite lookup_insert_eq.
  cbn [default from_option id].
  rewrite (map_to_list_insert (items s) _ _ Hfree). cbn [fmap list_fmap fst].
  rewrite members_insert, <- Hc.
  rewrite (members_lookup (deref_index h (masterChannelList s)) m).
  rewrite <- (assoc_L (++)). cbn [app]. symmetry. apply Permutation_middle.
Qed.

(** [remove_channel] either leaves the state as it is (it raised before
    it changed anything), or it took the name out of one list of the
    index, and then popped the key if the store had it. *)
Lemma remove_channel_exec name s h :
  exec (remove_channel name) (s, h) = (s, h) ∨
  ∃ m l l',
    deref_index h (masterChannelList s) !! m = Some l ∧
    list_remove name l = Some l' ∧
    exec (remove_channel name) (s, h) =
    (match items s !! name with
     | Some _ => set_items (delete name) s
     | None => s
     end,
     set_indexes <[masterChannelList s :=
                     <[m := l']> (deref_index h (masterChannelList s))]> h).
Proof.
  assert (Hgo : ∀ m st1,
    (∀ st, (as_master (master_val m)) st = (Ok m, st)) →
    exec (mcl_remove m name ≫= λ _, self_pop name ≫= λ r, mret (VRef r)) (s, h) = st1 →
    st1 = (s, h) ∨
    ∃ l l',
      deref_index h (masterChannelList s) !! m = Some l ∧
      list_remove name l = Some l' ∧
      st1 =
      (match items s !! name with
       | Some _ => set_items (delete name) s
       | None => s
       end,
       set_indexes <[masterChannelList s :=
                       <[m := l']> (deref_index h (masterChannelList s))]> h)).
  { intros m st1 _ <-. mcbv.
    destruct (deref_index h (masterChannelList s) !! m) as [l|] eqn:Hl; mrun; [|by left].
    destruct (list_remove name l) as [l'|] eqn:Hl'; mrun; [|by left].
    right. exists l, l'. split; [done|]. split; [done|].
    destruct (items s !! name) eqn:Hn; mrun; reflexivity. }
  remember (exec (remove_channel name) (s, h)) as st1 eqn:E.
  unfold remove_channel, getChannelMaster, exec in E.
  cbv beta iota delta [mbind M_bind] in E. rewrite _getChannelField_run in E.
  destruct (items s !! name) as [r|] eqn:Hr.
  - destruct (default (VStr "") (deref h r !! masterField)) as [| | | |m| | |] eqn:Hv;
      try (left; exact E).
    + destruct (Hgo None st1 ltac:(done) (eq_sym E)) as [H|(l & l' & H1 & H2 & H)].
      * left. exact H.
      * right. exists None, l, l'. by repeat split.
    + destruct (Hgo (Some m) st1 ltac:(done) (eq_sym E)) as [H|(l & l' & H1 & H2 & H)].
      * left. exact H.
      * right. exists (Some m), l, l'. by repeat split.
  - destruct (Hgo None st1 ltac:(done) (eq_sym E)) as [H|(l & l' & H1 & H2 & H)].
    + left. exact H.
    + right. exists None, l, l'. by repeat split.
Qed.

Lemma remove_channel_consistent name (st : state) :
  consistent st → consistent (exec (remove_channel name) st).
Proof.
  destruct st as [s h]. intros Hc.
  destruct (remove_channel_exec name s h) as [-> | (m & l & l' & Hl & Hl' & ->)]; [done|].
  apply list_remove_perm in Hl'.
  assert (Hin : name ∈ keys (s, h)).
  { unfold consistent in Hc. rewrite <- Hc. unfold index_members, index_of. cbn [fst snd].
    rewrite (members_lookup _ m), Hl. cbn [default from_option id].
    rewrite Hl'. apply elem_of_cons. by left. }
  apply elem_of_keys in Hin as [r Hr]. rewrite Hr.
  unfold consistent, index_members, keys, index_of in *. cbn [fst snd] in *.
  rewrite masterChannelList_set_items, deref_index_insert, items_set_items.
  rewrite members_insert.
  rewrite (members_lookup _ m), Hl in Hc. cbn [default from_option id] in Hc.
  rewrite Hl', <- (map_to_list_delete (items s) name r Hr) in Hc.
  cbn [fmap list_fmap fst app] in Hc.
  by apply Permutation_cons_inv in Hc.
Qed.

Lemma _setChannel_consistent name v f (st : state) :
  consistent st → consistent (exec (_setChannel name v f) st).
Proof.
  destruct st as [s h]. unfold exec. rewrite _setChannel_run.
  by destruct (items s !! name).
Qed.

Lemma run_call_consistent c (st : state) :
  consistent st → takes_free_key c st → consistent (run_call c st).
Proof.
  intros Hc Hfree. destruct c; cbn [run_call takes_free_key] in *.
  - by apply add_channel_consistent.
  - by apply remove_channel_consistent.
  - by apply _setChannel_consistent.
Qed.

(** Index and records agree in every state reached from a consistent one
    by calls of [add_channel], [remove_channel] and the setters, whether
    the calls return or raise, provided no [add_channel] lands on a key
    that is taken. *)
Lemma run_calls_consistent cs (st : state) :
  consistent st → free_keys cs st → consistent (run_calls cs st).
Proof.
  revert st. induction cs as [|c cs IH]; intros st Hc Hfree; [done|].
  destruct Hfree as [Hc1 Hfree]. cbn [run_calls foldl].
  apply IH; [by apply run_call_consistent | done].
Qed.

Lemma reachable_consistent cs :
  free_keys cs new_store → consistent (run_calls cs new_store).
Proof. apply run_calls_consistent, new_store_consistent. Qed.

(** The three calls of C1 and C2 as a sequence: the third call is the one
    that lands on a taken key. *)
Lemma three_T_calls :
  three_T =
  run_calls [AddChannel 0 "T" (VList [VInt 1]) (Some "Time") (VInt 1) (VStr "") (VStr "") None;
             AddChannel 0 "T" (VList [VInt 2]) (Some "Time") (VInt 1) (VStr "") (VStr "") None;
             AddChannel 0 "T" (VList [VInt 3]) (Some "Time") (VInt 1) (VStr "") (VStr "") None]
    new_store ∧
  consistent two_T ∧
  items two_T.1 !! key_of two_T.1 0 "T" = Some 3%positive.
Proof.
  split; [reflexivity|]. split; [|by vm_compute].
  apply (reachable_consistent
           [AddChannel 0 "T" (VList [VInt 1]) (Some "Time") (VInt 1) (VStr "") (VStr "") None;
            AddChannel 0 "T" (VList [VInt 2]) (Some "Time") (VInt 1) (VStr "") (VStr "") None]).
  repeat split; by vm_compute.
Qed.

(** ** What a collision leaves untouched *)

Lemma length_append (a b : string) :
  String.length (a +:+ b) = (String.length a + String.length b)%nat.
Proof. induction a as [|c a IH]; simpl; [done | by rewrite IH]. Qed.

Lemma key_of_collision s g n r :
  items s !! n = Some r → key_of s g n = n +:+ "_" +:+ pretty g ∧ key_of s g n ≠ n.
Proof.
  intros Hr. unfold key_of. rewrite bool_decide_is_Some, Hr. split; [done|].
  intros Heq. apply (f_equal String.length) in Heq.
  rewrite !length_append in Heq. cbn in Heq. lia.
Qed.

(** [add_channel] keeps every other key with its record object, and every
    dictionary that was in the heap: on a collision the record under the
    name itself stays as it is. *)
Lemma add_channel_keeps g n data m mt u desc conv s h :
  let st' := exec (add_channel g n data m mt u desc conv) (s, h) in
  (∀ k, k ≠ key_of s g n → items st'.1 !! k = items s !! k) ∧
  (∀ l d, dicts h !! l = Some d → dicts st'.2 !! l = Some d) ∧
  is_Some (items st'.1 !! key_of s g n).
Proof.
  pose proof (add_channel_exec g n data m mt u desc conv s h) as [Hs (_ & Hd & _)].
  cbv zeta in *. revert Hs Hd.
  set (st' := exec _ _). destruct st' as [s' h']. cbn [fst snd]. intros -> Hd.
  assert (Hfresh : ∀ l d, dicts h !! l = Some d → l ≠ fresh (dom (dicts h))).
  { intros l d Hl ->. apply (is_fresh (dom (dicts h))). apply elem_of_dom. eauto. }
  split; [|split].
  - intros k Hk. rewrite items_set_items. by apply lookup_insert_ne.
  - intros l d Hl. rewrite Hd by eauto. unfold registered. cbn [fst snd dicts].
    rewrite lookup_insert_ne; [done|]. intros Heq. by eapply Hfresh.
  - rewrite items_set_items, lookup_insert_eq. eauto.
Qed.

Lemma add_channel_collision g n data m mt u desc conv s h r d :
  items s !! n = Some r →
  dicts h !! r = Some d →
  let st' := exec (add_channel g n data m mt u desc conv) (s, h) in
  items st'.1 !! n = Some r ∧
  dicts st'.2 !! r = Some d ∧
  is_Some (items st'.1 !! (n +:+ "_" +:+ pretty g)).
Proof.
  intros Hr Hd st'.
  destruct (key_of_collision s g n r Hr) as [Hkey Hne].
  destruct (add_channel_keeps g n data m mt u desc conv s h) as (Hk & Hl & Hnew).
  fold st' in Hk, Hl, Hnew. rewrite Hkey in Hnew.
  split; [|split; [|done]].
  - rewrite Hk by done. exact Hr.
  - by apply Hl.
Qed.

(** ** The copy is shallow *)

(** A channel added through the copy is a key of the copy only, but it
    enters the index the two stores share; a unit set through the copy is
    the unit of the source's record too. *)
Lemma copy_shares_index_and_records :
  keys copy_of_one_T = ["T"] ∧
  keys copy_after_calls = ["U"; "T"] ∧
  keys source_after_calls = ["T"] ∧
  index_members source_after_calls = ["T"; "U"] ∧
  outcome (getChannelUnit "T") one_T = Ok (VStr "") ∧
  outcome (getChannelUnit "T") source_after_calls = Ok (VStr "s").
Proof. repeat split; by vm_compute. Qed.

(** ** The copy and its source (C7) *)


(** * Further properties *)

(** ** Setters and getters *)

Lemma setter_fields_spec (set : string → pyval → M unit) f :
  (set, f) ∈ setter_fields → ∀ n v, set n v = _setChannel n v f.
Proof.
  intros Hin n v. unfold setter_fields in Hin.
  repeat (apply elem_of_cons in Hin as [[= -> ->] | Hin]; [reflexivity|]).
  by apply elem_of_nil in Hin.
Qed.

Lemma getter_fields_spec (get : string → M pyval) f :
  (get, f) ∈ getter_fields → ∀ n, get n = _getChannelField n f.
Proof.
  intros Hin n. unfold getter_fields in Hin.
  repeat (apply elem_of_cons in Hin as [[= -> ->] | Hin]; [reflexivity|]).
  by apply elem_of_nil in Hin.
Qed.

(** X1. On a channel of the store, each of the seven setters returns,
    and the field it writes then reads back as the value that was set,
    whatever it is: through [_getChannelField], and through the getter of
    the field where the class has one. *)
Theorem X1_set_then_get (set : string → pyval → M unit) f name v (st : state) :
  (set, f) ∈ setter_fields →
  is_Some (items st.1 !! name) →
  outcome (set name v) st = Ok () ∧
  outcome (_getChannelField name f) (exec (set name v) st) = Ok v ∧
  ∀ get : string → M pyval, (get, f) ∈ getter_fields →
    outcome (get name) (exec (set name v) st) = Ok v.
Proof.
  intros Hs [r Hr]. destruct st as [s h]. cbn [fst] in Hr.
  rewrite (setter_fields_spec set f Hs).
  assert (Hget : outcome (_getChannelField name f) (exec (_setChannel name v f) (s, h)) = Ok v).
  { unfold outcome, exec. rewrite _setChannel_run, Hr. cbn [snd].
    rewrite _getChannelField_run, Hr, deref_insert, lookup_insert_eq. reflexivity. }
  split; [|split; [exact Hget|]].
  - unfold outcome. by rewrite _setChannel_run, Hr.
  - intros get Hg. by rewrite (getter_fields_spec get f Hg).
Qed.

Lemma X1_witness :
  outcome (setChannelData "T" (VList [VInt 9])) one_T = Ok () ∧
  outcome (_getChannelField "T" dataField) (exec (setChannelData "T" (VList [VInt 9])) one_T) =
  Ok (VList [VInt 9]).
Proof.
  destruct (X1_set_then_get setChannelData dataField "T" (VList [VInt 9]) one_T)
    as (H1 & H2 & _).
  - apply elem_of_cons. right. apply elem_of_cons. by left.
  - by vm_compute; eauto.
  - split; [exact H1 | exact H2].
Defined.

(** X2. A setter changes nothing but the field it sets on the record it
    sets it on: the store object and the index stay as they are, and every
    getter of another field, or on a channel that has another record
    object, returns what it returned before. *)
Theorem X2_set_leaves_the_rest (set : string → pyval → M unit) (get : string → M pyval)
    f f' name name' v (st : state) :
  (set, f) ∈ setter_fields →
  (get, f') ∈ getter_fields →
  f' ≠ f ∨ items st.1 !! name' ≠ items st.1 !! name →
  (exec (set name v) st).1 = st.1 ∧
  indexes (exec (set name v) st).2 = indexes st.2 ∧
  outcome (get name') (exec (set name v) st) = outcome (get name') st.
Proof.
  intros Hs Hg Hne. destruct st as [s h]. cbn [fst snd] in *.
  rewrite (setter_fields_spec set f Hs), (getter_fields_spec get f' Hg).
  unfold outcome, exec. rewrite _setChannel_run.
  destruct (items s !! name) as [r|] eqn:Hr; [|done].
  cbn [fst snd]. split; [done|]. split; [done|].
  rewrite !_getChannelField_run.
  destruct (items s !! name') as [r'|] eqn:Hr'; [|done]. cbn [fst].
  destruct (decide (r' = r)) as [->|Hrr].
  - rewrite deref_insert. destruct Hne as [Hf|Hf]; [|done].
    by rewrite lookup_insert_ne.
  - by rewrite deref_insert_ne.
Qed.

Lemma X2_witness :
  outcome (getChannelDesc "T") (exec (setChannelUnit "T" (VStr "s")) one_T) =
  outcome (getChannelDesc "T") one_T.
Proof.
  apply (X2_set_leaves_the_rest setChannelUnit getChannelDesc unitField descriptionField
           "T" "T" (VStr "s") one_T).
  - apply elem_of_cons. by left.
  - apply elem_of_cons. right. apply elem_of_cons. by left.
  - left. discriminate.
Defined.

(** X3. Removing a field that was just set returns the value that was
    set and leaves the record without the field: the getter returns the
    empty string, and a second removal returns [None] and changes
    nothing. *)
Theorem X3_set_then_remove_field name v f (st : state) :
  is_Some (items st.1 !! name) →
  let st1 := exec (_setChannel name v f) st in
  let st2 := exec (_remove_channel_field name f) st1 in
  outcome (_remove_channel_field name f) st1 = Ok v ∧
  outcome (_getChannelField name f) st2 = Ok (VStr "") ∧
  _remove_channel_field name f st2 = (Ok VNone, st2).
Proof.
  intros [r Hr] st1 st2. destruct st as [s h]. cbn [fst] in Hr.
  subst st2 st1. unfold outcome, exec.
  rewrite _setChannel_run, Hr. cbn [snd].
  rewrite _remove_channel_field_run, Hr, deref_insert, lookup_insert_eq. cbn [fst snd].
  split; [done|].
  rewrite _getChannelField_run, _remove_channel_field_run, Hr.
  rewrite !deref_insert, lookup_delete_eq. done.
Qed.

Lemma X3_witness :
  outcome (_remove_channel_field "T" conversionField)
    (exec (_setChannel "T" (VDict ∅) conversionField) one_T) = Ok (VDict ∅).
Proof.
  assert (Hkey : is_Some (items one_T.1 !! "T")) by (by vm_compute; eauto).
  destruct (X3_set_then_remove_field "T" (VDict ∅) conversionField one_T Hkey)
    as (H & _ & _).
  exact H.
Defined.

(** ** What [add_channel] stores *)

Lemma add_channel_field g n data m mt u desc conv s h f :
  f ≠ conversionField →
  outcome (_getChannelField (key_of s g n) f)
    (exec (add_channel g n data m mt u desc conv) (s, h)) =
  Ok (default (VStr "") (new_record data u desc m (stored_master_type s mt) !! f)).
Proof.
  intros Hf.
  pose proof (add_channel_exec g n data m mt u desc conv s h) as [Hs (_ & _ & Hd)].
  cbv zeta in Hs, Hd. revert Hs Hd.
  set (st' := exec _ _). destruct st' as [s' h']. cbn [fst snd]. intros -> Hd.
  unfold outcome. rewrite _getChannelField_run, items_set_items, lookup_insert_eq.
  cbn [fst]. rewrite Hd by done. unfold registered. cbn [fst snd].
  by rewrite deref_Heap_insert.
Qed.

(** X4. After [add_channel], whether it returned or raised on the
    conversion, the getters on the key of the channel return the unit, the
    description and the master that were passed, and the record holds the
    data that was passed. *)
Theorem X4_add_then_get g n data m mt u desc conv (st : state) :
  let key := key_of st.1 g n in
  let st' := exec (add_channel g n data m mt u desc conv) st in
  outcome (getChannelUnit key) st' = Ok u ∧
  outcome (getChannelDesc key) st' = Ok desc ∧
  outcome (getChannelMaster key) st' = Ok (master_val m) ∧
  outcome (_getChannelField key dataField) st' = Ok data.
Proof.
  destruct st as [s h]. cbv zeta. cbn [fst].
  unfold getChannelUnit, getChannelDesc, getChannelMaster.
  rewrite !add_channel_field by done. unfold new_record.
  repeat split; by simplify_map_eq.
Qed.

Lemma add_channel_keys_index g n data m mt u desc conv (st : state) :
  let key := key_of st.1 g n in
  let st' := exec (add_channel g n data m mt u desc conv) st in
  dom (items st'.1) = {[key]} ∪ dom (items st.1) ∧
  index_of st' !! m = Some (default [] (index_of st !! m) ++ [key]) ∧
  ∀ m', m' ≠ m → index_of st' !! m' = index_of st !! m'.
Proof.
  destruct st as [s h]. cbv zeta. cbn [fst].
  pose proof (add_channel_exec g n data m mt u desc conv s h) as [Hs (Hi & _ & _)].
  cbv zeta in Hs, Hi. revert Hs Hi.
  set (st' := exec _ _). destruct st' as [s' h']. cbn [fst snd]. intros -> Hi.
  assert (Hidx : index_of (set_items <[key_of s g n := fresh (dom (dicts h))]> s, h') =
                 <[m := default [] (index_of (s, h) !! m) ++ [key_of s g n]]>
                   (index_of (s, h))).
  { unfold index_of. cbn [fst snd]. rewrite masterChannelList_set_items.
    unfold deref_index at 1. rewrite Hi. unfold registered. cbn [fst snd indexes].
    by rewrite lookup_insert_eq. }
  rewrite Hidx, items_set_items. split; [apply dom_insert_L|]. split.
  - apply lookup_insert_eq.
  - intros m' Hm'. by apply lookup_insert_ne.
Qed.

(** X5. [add_channel] makes its key a key of the store and keeps all the
    others, and in the index it appends the key at the end of the list of
    its master, starting that list if the master is new; the lists of the
    other masters stay as they are.  This holds whether [add_channel]
    returned or raised on the conversion. *)
Theorem X5_add_appends_to_its_master g n data m mt u desc conv (st : state) :
  let key := key_of st.1 g n in
  let st' := exec (add_channel g n data m mt u desc conv) st in
  dom (items st'.1) = {[key]} ∪ dom (items st.1) ∧
  index_of st' !! m = Some (default [] (index_of st !! m) ++ [key]) ∧
  ∀ m', m' ≠ m → index_of st' !! m' = index_of st !! m'.
Proof. apply add_channel_keys_index. Qed.

(** X6. Without a conversion, [add_channel] never raises, and
    [getChannelConversion] on the new channel returns the empty string:
    the record has no conversion. *)
Theorem X6_add_without_conversion g n data m mt u desc (st : state) :
  let st' := exec (add_channel g n data m mt u desc None) st in
  outcome (add_channel g n data m mt u desc None) st = Ok () ∧
  outcome (getChannelConversion (key_of st.1 g n)) st' = Ok (VStr "").
Proof.
  destruct st as [s h]. cbv zeta. cbn [fst]. unfold outcome, exec.
  rewrite add_channel_run. split; [reflexivity|]. cbn [snd mret M_ret].
  unfold getChannelConversion.
  set (reg := registered _ _ _ _ _ _ _). rewrite (surjective_pairing reg).
  rewrite _getChannelField_run. subst reg. rewrite registered_key. cbn [fst].
  unfold registered. cbn [fst snd]. rewrite deref_Heap_insert.
  unfold new_record. by simplify_map_eq.
Qed.

Lemma attach_conversion_modern_run version key c t s h r :
  (version <? 400) = false →
  items s !! key = Some r →
  c !! "cc_type" = Some t →
  attach_conversion version key c (s, h) =
  (Ok (), (s, set_dicts <[r := <[conversionField := modern_conversion t c]> (deref h r)]> h)).
Proof.
  intros Hv Hkey Ht. unfold attach_conversion, modern_conversion, modern_parameters.
  rewrite Hv.
  destruct (c !! "cc_val") as [v|] eqn:Hval; destruct (c !! "cc_ref") as [w|] eqn:Href;
    mnorm; rewrite ?lookup_insert_eq; mnorm; reflexivity.
Qed.

(** X7. On a store of version 400 or more, [add_channel] with a
    conversion that has a type returns, and the conversion it stores is
    the type with the parameters [cc_val] and [cc_ref], each if the
    description has it; nothing is dropped as an identity. *)
Theorem X7_modern_conversion_stored g n data m mt u desc c t (st : state) :
  400 ≤ MDFVersionNumber st.1 →
  c !! "cc_type" = Some t →
  let st' := exec (add_channel g n data m mt u desc (Some c)) st in
  outcome (add_channel g n data m mt u desc (Some c)) st = Ok () ∧
  outcome (getChannelConversion (key_of st.1 g n)) st' = Ok (modern_conversion t c).
Proof.
  destruct st as [s h]. cbn [fst]. intros Hv Ht. cbv zeta. unfold outcome, exec.
  rewrite add_channel_run.
  set (reg := registered _ _ _ _ _ _ _). rewrite (surjective_pairing reg).
  rewrite (attach_conversion_modern_run _ _ c t _ _ (fresh (dom (dicts h))));
    [| by apply Z.ltb_ge | apply registered_key | done].
  split; [reflexivity|]. cbn [snd]. unfold getChannelConversion.
  rewrite _getChannelField_run. subst reg. rewrite registered_key. cbn [fst].
  by rewrite deref_insert, lookup_insert_eq.
Qed.

Lemma X7_witness :
  outcome (getChannelConversion "T")
    (exec (add_channel 0 "T" (VList [VInt 1]) (Some "Time") (VInt 2) (VStr "") (VStr "")
             (Some modern_description)) new_store_410) =
  Ok (VDict (<["parameters" := VDict (<["cc_val" := VList [VInt 2; VInt 3]]> ∅)]>
               (<["type" := VInt 1]> ∅))).
Proof.
  destruct (X7_modern_conversion_stored 0 "T" (VList [VInt 1]) (Some "Time") (VInt 2)
              (VStr "") (VStr "") modern_description (VInt 1) new_store_410) as [_ H].
  - by vm_compute.
  - reflexivity.
  - exact H.
Defined.

Lemma attach_conversion_untyped_run version key c s h r :
  items s !! key = Some r →
  c !! "cc_type" = None →
  attach_conversion version key c (s, h) =
  (Raise KeyError, (s, set_dicts <[r := <[conversionField := VDict ∅]> (deref h r)]> h)).
Proof. intros Hkey Ht. unfold attach_conversion. mnorm. reflexivity. Qed.

(** X8. A conversion without the entry [cc_type] makes [add_channel]
    raise [KeyError], on every version; the channel is registered all the
    same, as a key and in the list of its master, and its record is left
    with an empty conversion dictionary. *)
Theorem X8_conversion_without_type g n data m mt u desc c (st : state) :
  c !! "cc_type" = None →
  let key := key_of st.1 g n in
  let st' := exec (add_channel g n data m mt u desc (Some c)) st in
  outcome (add_channel g n data m mt u desc (Some c)) st = Raise KeyError ∧
  is_Some (items st'.1 !! key) ∧
  (∃ l, index_of st' !! m = Some (l ++ [key])) ∧
  outcome (getChannelConversion key) st' = Ok (VDict ∅).
Proof.
  intros Ht key st'.
  destruct (add_channel_keys_index g n data m mt u desc (Some c) st) as (Hdom & Hidx & _).
  cbv zeta in Hdom, Hidx. fold key in Hdom, Hidx. fold st' in Hdom, Hidx.
  assert (Hkey : is_Some (items st'.1 !! key)).
  { apply elem_of_dom. rewrite Hdom. apply elem_of_union. left. by apply elem_of_singleton. }
  split; [|split; [done|split; [eauto|]]].
  - destruct st as [s h]. unfold outcome. rewrite add_channel_run.
    set (reg := registered _ _ _ _ _ _ _). rewrite (surjective_pairing reg).
    by rewrite (attach_conversion_untyped_run _ _ c _ _ (fresh (dom (dicts h))))
      by (done || apply registered_key).
  - subst st'. destruct st as [s h]. unfold outcome, exec. rewrite add_channel_run.
    subst key. cbn [fst].
    set (reg := registered _ _ _ _ _ _ _). rewrite (surjective_pairing reg).
    rewrite (attach_conversion_untyped_run _ _ c _ _ (fresh (dom (dicts h))))
      by (done || apply registered_key).
    cbn [snd]. unfold getChannelConversion. rewrite _getChannelField_run.
    subst reg. rewrite registered_key. cbn [fst].
    by rewrite deref_insert, lookup_insert_eq.
Qed.

Lemma X8_witness :
  outcome (add_channel 0 "T" (VList [VInt 1]) (Some "Time") (VInt 1) (VStr "") (VStr "")
             (Some untyped_description)) new_store = Raise KeyError.
Proof.
  destruct (X8_conversion_without_type 0 "T" (VList [VInt 1]) (Some "Time") (VInt 1)
              (VStr "") (VStr "") untyped_description new_store) as [H _].
  - reflexivity.
  - exact H.
Defined.

(** X9. On a store of version below 400, for a conversion that has a type
    and whose parameters are a dictionary (or are left out), the record
    keeps the conversion, as the type with the parameters, exactly when
    the conversion is not an identity: [getChannelConversion] returns it,
    or the empty string for an identity.  This holds also when
    [add_channel] raised on a missing [P2] or [P1]. *)
Theorem X9_legacy_conversion_kept_unless_identity g n data m mt u desc c t ps (st : state) :
  MDFVersionNumber st.1 < 400 →
  c !! "cc_type" = Some t →
  params_of c = Some ps →
  outcome (getChannelConversion (key_of st.1 g n))
    (exec (add_channel g n data m mt u desc (Some c)) st) =
  Ok (if is_identity t ps then VStr "" else legacy_conversion t ps).
Proof.
  destruct st as [s h]. cbn [fst]. intros Hv Ht Hps. unfold outcome, exec.
  rewrite (add_channel_legacy_run g n data m mt u desc c t ps s h Hv Ht Hps).
  cbv zeta. unfold getChannelConversion.
  assert (Hkey := registered_key (key_of s g n) data u desc m (stored_master_type s mt) s h).
  assert (Hstored : ∀ o : res unit,
    (_getChannelField (key_of s g n) conversionField
       (o, ((registered (key_of s g n) data u desc m (stored_master_type s mt) (s, h)).1,
            set_dicts <[fresh (dom (dicts h)) :=
                         <[conversionField := legacy_conversion t ps]>
                           (deref (registered (key_of s g n) data u desc m
                                     (stored_master_type s mt) (s, h)).2
                              (fresh (dom (dicts h))))]>
              (registered (key_of s g n) data u desc m
                 (stored_master_type s mt) (s, h)).2)).2).1 =
    Ok (legacy_conversion t ps)).
  { intros o. cbn [snd]. rewrite _getChannelField_run, Hkey. cbn [fst].
    by rewrite deref_insert, lookup_insert_eq. }
  unfold legacy_result, is_identity.
  destruct (py_eq_num t (NInt 0)); cbn [andb]; [|apply Hstored].
  destruct (ps !! "P2") as [p2|]; [|apply Hstored].
  destruct (py_eq_num p2 (NFloat float_one)); cbn [andb]; [|apply Hstored].
  destruct (ps !! "P1") as [p1|]; [|apply Hstored].
  destruct (py_in_nums p1 _); [|apply Hstored].
  cbn [snd]. rewrite _getChannelField_run, Hkey. cbn [fst].
  by rewrite deref_insert, lookup_delete_eq.
Qed.

Lemma X9_witness :
  outcome (getChannelConversion (key_of new_store.1 0 "T"))
    (exec (add_channel 0 "T" (VList [VInt 1]) (Some "Time") (VInt 1) (VStr "") (VStr "")
             (Some legacy_description)) new_store) =
  Ok (legacy_conversion (VInt 1)
        (<["P1" := VFloat float_zero]> (<["P2" := VFloat float_one]> ∅))).
Proof.
  rewrite (X9_legacy_conversion_kept_unless_identity 0 "T" (VList [VInt 1]) (Some "Time")
             (VInt 1) (VStr "") (VStr "") legacy_description (VInt 1)
             (<["P1" := VFloat float_zero]> (<["P2" := VFloat float_one]> ∅)) new_store);
    reflexivity.
Defined.

Lemma attach_conversion_unparsed_run version key c t p s h r :
  (version <? 400) = true →
  items s !! key = Some r →
  c !! "cc_type" = Some t →
  c !! "conversion" = Some p →
  not_a_mapping p →
  attach_conversion version key c (s, h) =
  (if py_eq_num t (NInt 0) then Raise TypeError else Ok (),
   (s, set_dicts <[r := <[conversionField :=
                            VDict (<["parameters" := p]> (<["type" := t]> ∅))]>
                          (deref h r)]> h)).
Proof.
  intros Hv Hkey Ht Hp Hnm. unfold attach_conversion, legacy_elision. rewrite Hv.
  mnorm. destruct (py_eq_num t (NInt 0)); mnorm; [|reflexivity].
  destruct p; try done; mnorm; reflexivity.
Qed.

(** X10. On a store of version below 400, when the entry [conversion] of
    the description is not a dictionary, [add_channel] raises [TypeError]
    for type 0, where it indexes the parameters, and returns for any other
    type; in both cases the record keeps the type with that value as its
    parameters. *)
Theorem X10_parameters_not_a_mapping g n data m mt u desc c t p (st : state) :
  MDFVersionNumber st.1 < 400 →
  c !! "cc_type" = Some t →
  c !! "conversion" = Some p →
  not_a_mapping p →
  outcome (add_channel g n data m mt u desc (Some c)) st =
    (if py_eq_num t (NInt 0) then Raise TypeError else Ok ()) ∧
  outcome (getChannelConversion (key_of st.1 g n))
    (exec (add_channel g n data m mt u desc (Some c)) st) =
    Ok (VDict (<["parameters" := p]> (<["type" := t]> ∅))).
Proof.
  destruct st as [s h]. cbn [fst]. intros Hv Ht Hp Hnm. unfold outcome, exec.
  rewrite add_channel_run.
  set (reg := registered _ _ _ _ _ _ _). rewrite (surjective_pairing reg).
  rewrite (attach_conversion_unparsed_run _ _ c t p _ _ (fresh (dom (dicts h))));
    [| by apply Z.ltb_lt | apply registered_key | done..].
  split; [reflexivity|]. cbn [snd]. unfold getChannelConversion.
  rewrite _getChannelField_run. subst reg. rewrite registered_key. cbn [fst].
  by rewrite deref_insert, lookup_insert_eq.
Qed.

Lemma X10_witness :
  outcome (add_channel 0 "T" (VList [VInt 1]) (Some "Time") (VInt 1) (VStr "") (VStr "")
             (Some unparsed_description)) new_store = Raise TypeError.
Proof.
  destruct (X10_parameters_not_a_mapping 0 "T" (VList [VInt 1]) (Some "Time") (VInt 1)
              (VStr "") (VStr "") unparsed_description (VInt 0) VNone new_store) as [H _];
    [by vm_compute | reflexivity | reflexivity | exact I | exact H].
Defined.

(** ** What [remove_channel] does *)

(** [remove_channel] either raises with the state as it was, or it took
    the name out of one list of the index; in that case it returns the
    record if the name is a key, and raises [KeyError] from the [pop] if it
    is not. *)
Lemma remove_channel_cases name s h :
  (∃ e, remove_channel name (s, h) = (Raise e, (s, h))) ∨
  ∃ m l l',
    deref_index h (masterChannelList s) !! m = Some l ∧
    list_remove name l = Some l' ∧
    remove_channel name (s, h) =
    (match items s !! name with
     | Some r => Ok (VRef r)
     | None => Raise KeyError
     end,
     (match items s !! name with
      | Some _ => set_items (delete name) s
      | None => s
      end,
      set_indexes <[masterChannelList s :=
                      <[m := l']> (deref_index h (masterChannelList s))]> h)).
Proof.
  assert (Hgo : ∀ m out,
    (mcl_remove m name ≫= λ _, self_pop name ≫= λ r, mret (VRef r)) (s, h) = out →
    (∃ e, out = (Raise e, (s, h))) ∨
    ∃ l l',
      deref_index h (masterChannelList s) !! m = Some l ∧
      list_remove name l = Some l' ∧
      out =
      (match items s !! name with
       | Some r => Ok (VRef r)
       | None => Raise KeyError
       end,
       (match items s !! name with
        | Some _ => set_items (delete name) s
        | None => s
        end,
        set_indexes <[masterChannelList s :=
                        <[m := l']> (deref_index h (masterChannelList s))]> h))).
  { intros m out <-. mcbv.
    destruct (deref_index h (masterChannelList s) !! m) as [l|] eqn:Hl; mrun;
      [|left; by eexists].
    destruct (list_remove name l) as [l'|] eqn:Hl'; mrun; [|left; by eexists].
    right. exists l, l'. split; [done|]. split; [done|].
    destruct (items s !! name) eqn:Hn; mrun; reflexivity. }
  remember (remove_channel name (s, h)) as out eqn:E.
  unfold remove_channel, getChannelMaster in E.
  cbv beta iota delta [mbind M_bind] in E. rewrite _getChannelField_run in E.
  destruct (items s !! name) as [r|] eqn:Hr.
  - destruct (default (VStr "") (deref h r !! masterField)) as [| | | |m| | |] eqn:Hv;
      try (left; eexists; exact E).
    + destruct (Hgo None out (eq_sym E)) as [H|(l & l' & H1 & H2 & H)].
      * left. exact H.
      * right. exists None, l, l'. by repeat split.
    + destruct (Hgo (Some m) out (eq_sym E)) as [H|(l & l' & H1 & H2 & H)].
      * left. exact H.
      * right. exists (Some m), l, l'. by repeat split.
  - destruct (Hgo None out (eq_sym E)) as [H|(l & l' & H1 & H2 & H)].
    + left. exact H.
    + right. exists None, l, l'. by repeat split.
Qed.

(** X11. On a key of the store, [remove_channel] is all or nothing:
    either it returns the record of the key, the key is gone and no
    dictionary of the heap has changed, or it raises and the state is as it
    was.  On a name that is no key it always raises. *)
Theorem X11_remove_channel_all_or_nothing name (st : state) :
  (∀ r, items st.1 !! name = Some r →
     (outcome (remove_channel name) st = Ok (VRef r) ∧
      items (exec (remove_channel name) st).1 = delete name (items st.1) ∧
      dicts (exec (remove_channel name) st).2 = dicts st.2) ∨
     (∃ e, remove_channel name st = (Raise e, st))) ∧
  (items st.1 !! name = None → ∃ e, outcome (remove_channel name) st = Raise e).
Proof.
  destruct st as [s h]. cbn [fst snd]. unfold outcome, exec.
  destruct (remove_channel_cases name s h) as [[e He] | (m & l & l' & _ & _ & He)];
    rewrite He; cbn [fst snd].
  - split; [intros r _; right|intros _]; by eexists.
  - split.
    + intros r Hr. left. by rewrite Hr.
    + intros ->. by eexists.
Qed.

Lemma X11_witness :
  ∃ e, outcome (remove_channel "X") new_store = Raise e.
Proof.
  destruct (X11_remove_channel_all_or_nothing "X" new_store) as [_ H].
  apply H. reflexivity.
Defined.

(** X12. On a store whose index and records agree, [remove_channel] on a
    name that is no key raises and leaves the state as it was. *)
Theorem X12_remove_unknown_changes_nothing name (st : state) :
  consistent st →
  items st.1 !! name = None →
  ∃ e, remove_channel name st = (Raise e, st).
Proof.
  destruct st as [s h]. cbn [fst]. intros Hc Hnone.
  destruct (remove_channel_cases name s h) as [H | (m & l & l' & Hl & Hl' & _)]; [done|].
  exfalso. apply list_remove_perm in Hl'.
  assert (Hin : name ∈ keys (s, h)).
  { unfold consistent in Hc. rewrite <- Hc. unfold index_members, index_of. cbn [fst snd].
    rewrite (members_lookup _ m), Hl. cbn [default from_option id].
    rewrite Hl'. apply elem_of_cons. by left. }
  apply elem_of_keys in Hin as [r Hr]. congruence.
Qed.

Lemma X12_witness :
  ∃ e, remove_channel "X" one_T = (Raise e, one_T).
Proof.
  apply (X12_remove_unknown_changes_nothing "X" one_T).
  - unfold consistent. by vm_compute.
  - reflexivity.
Defined.

(** X13. [remove_channel] right after [add_channel], on the key the
    channel got, returns the record [add_channel] made: the object the key
    is bound to, which the heap did not have before and which holds the
    data that were passed.  The store then has the keys it had before,
    without the key; the list of the master is the list it was before, an
    empty list if the master was new (the entry of a master is never
    deleted), and the other lists are untouched. *)
Theorem X13_add_then_remove g n data m mt u desc conv (st : state) :
  let key := key_of st.1 g n in
  let st1 := exec (add_channel g n data m mt u desc conv) st in
  let st2 := exec (remove_channel key) st1 in
  key ∉ default [] (index_of st !! m) →
  (∃ r, items st1.1 !! key = Some r ∧
        (r ∉ dom (dicts st.2)) ∧
        deref st1.2 r !! dataField = Some data ∧
        outcome (remove_channel key) st1 = Ok (VRef r)) ∧
  items st2.1 = delete key (items st.1) ∧
  index_of st2 !! m = Some (default [] (index_of st !! m)) ∧
  ∀ m', m' ≠ m → index_of st2 !! m' = index_of st !! m'.
Proof.
  intros key st1 st2 Hnew.
  destruct (add_channel_keys_index g n data m mt u desc conv st) as (_ & Hidx & Hoth).
  cbv zeta in Hidx, Hoth. fold key in Hidx, Hoth. fold st1 in Hidx, Hoth.
  destruct st as [s h].
  pose proof (add_channel_exec g n data m mt u desc conv s h) as [Hs (_ & _ & Hd)].
  cbv zeta in Hs, Hd. cbn [fst] in key. fold key in Hs, Hd. fold st1 in Hs, Hd.
  subst st2. destruct st1 as [s1 h1]. cbn [fst snd] in Hs, Hd. subst s1.
  assert (Hr : items (set_items <[key := fresh (dom (dicts h))]> s) !! key =
               Some (fresh (dom (dicts h)))).
  { rewrite items_set_items. apply lookup_insert_eq. }
  assert (Hm : deref h1 (fresh (dom (dicts h))) !! masterField = Some (master_val m)).
  { rewrite Hd by done. unfold registered. cbn [fst snd]. rewrite deref_Heap_insert.
    unfold new_record. by simplify_map_eq. }
  assert (Hdata : deref h1 (fresh (dom (dicts h))) !! dataField = Some data).
  { rewrite Hd by done. unfold registered. cbn [fst snd]. rewrite deref_Heap_insert.
    unfold new_record. by simplify_map_eq. }
  assert (Hrm : list_remove key (default [] (index_of (s, h) !! m) ++ [key] ++ []) =
                Some (default [] (index_of (s, h) !! m) ++ [])).
  { by apply list_remove_once. }
  rewrite !(right_id_L [] (++)) in Hrm. cbn [app] in Hrm.
  unfold outcome, exec.
  rewrite (remove_channel_run key _ m _ _ _ h1 Hr Hm Hidx Hrm). cbn [fst snd].
  split; [|split; [|split]].
  - exists (fresh (dom (dicts h))). split; [exact Hr|]. split; [apply is_fresh|].
    split; [exact Hdata|reflexivity].
  - rewrite !items_set_items. apply delete_insert_eq.
  - unfold index_of. cbn [fst snd].
    rewrite !masterChannelList_set_items, deref_index_insert. apply lookup_insert_eq.
  - intros m' Hm'. unfold index_of. cbn [fst snd].
    rewrite !masterChannelList_set_items, deref_index_insert.
    rewrite lookup_insert_ne by done. by apply Hoth.
Qed.

Lemma X13_witness :
  ∃ r, items (exec (add_channel 0 "T" (VList [VInt 1]) (Some "Time") (VInt 1) (VStr "")
                      (VStr "") None) new_store).1 !! key_of new_store.1 0 "T" = Some r ∧
       outcome (remove_channel (key_of new_store.1 0 "T"))
         (exec (add_channel 0 "T" (VList [VInt 1]) (Some "Time") (VInt 1) (VStr "")
                  (VStr "") None) new_store) = Ok (VRef r).
Proof.
  destruct (X13_add_then_remove 0 "T" (VList [VInt 1]) (Some "Time") (VInt 1) (VStr "")
              (VStr "") None new_store) as ((r & H1 & _ & _ & H2) & _).
  - vm_compute. apply not_elem_of_nil.
  - exists r. split; [exact H1 | exact H2].
Defined.

(** ** When [remove_channel] succeeds *)

Lemma list_remove_elem x l : x ∈ l → ∃ l', list_remove x l = Some l'.
Proof.
  induction l as [|y l IH]; intros Hin.
  - by apply elem_of_nil in Hin.
  - simpl. destruct (decide (x = y)) as [->|Hne]; [eauto|].
    apply elem_of_cons in Hin as [?|Hin]; [done|].
    destruct (IH Hin) as [l' ->]. eauto.
Qed.

Lemma list_remove_other x y l l' :
  list_remove x l = Some l' → y ≠ x → y ∈ l → y ∈ l'.
Proof.
  intros Hrm Hne Hin. apply list_remove_perm in Hrm.
  rewrite Hrm in Hin. apply elem_of_cons in Hin as [?|?]; done.
Qed.

Lemma deref_allocated h r f v : deref h r !! f = Some v → r ∈ dom (dicts h).
Proof.
  unfold deref. destruct (dicts h !! r) as [d|] eqn:E; simpl; intros H.
  - apply elem_of_dom. eauto.
  - by rewrite lookup_empty in H.
Qed.

Lemma new_store_well_indexed : well_indexed new_store.
Proof.
  intros n r Hn. unfold new_store, __init__ in Hn. cbn [fst items] in Hn.
  by rewrite lookup_empty in Hn.
Qed.

Lemma add_channel_well_indexed g n data m mt u desc conv (st : state) :
  well_indexed st → well_indexed (exec (add_channel g n data m mt u desc conv) st).
Proof.
  intros Hw.
  destruct (add_channel_keys_index g n data m mt u desc conv st) as (_ & Hidx & Hoth).
  cbv zeta in Hidx, Hoth. destruct st as [s h]. cbn [fst] in Hidx, Hoth.
  pose proof (add_channel_exec g n data m mt u desc conv s h) as [Hs (_ & Hd & Hf)].
  cbv zeta in Hs, Hd, Hf. revert Hidx Hoth Hs Hd Hf.
  set (st' := exec _ _). destruct st' as [s' h']. cbn [fst snd].
  intros Hidx Hoth -> Hd Hf k r Hk. cbn [fst snd] in Hk |- *.
  rewrite items_set_items in Hk.
  destruct (decide (k = key_of s g n)) as [->|Hne].
  - rewrite lookup_insert_eq in Hk. injection Hk as <-.
    exists m, (default [] (index_of (s, h) !! m) ++ [key_of s g n]).
    split; [|split; [exact Hidx|]].
    + rewrite Hf by done. unfold registered. cbn [fst snd].
      rewrite deref_Heap_insert. unfold new_record. by simplify_map_eq.
    + apply elem_of_app. right. apply elem_of_cons. by left.
  - rewrite lookup_insert_ne in Hk by done.
    destruct (Hw k r Hk) as (m' & l & Hm & Hl & Hin). cbn [fst snd] in Hm, Hl.
    assert (Hr : r ≠ fresh (dom (dicts h))).
    { intros ->. apply (is_fresh (dom (dicts h))). by eapply deref_allocated. }
    assert (Hdr : deref h' r = deref h r).
    { unfold deref. rewrite Hd by done. unfold registered. cbn [fst snd dicts].
      by rewrite lookup_insert_ne. }
    rewrite Hdr. exists m'.
    destruct (decide (m' = m)) as [->|Hm'].
    + exists (default [] (index_of (s, h) !! m) ++ [key_of s g n]).
      split; [done|]. split; [exact Hidx|].
      rewrite Hl. cbn [default from_option id]. apply elem_of_app. by left.
    + exists l. split; [done|]. split; [|done]. by rewrite Hoth.
Qed.

Lemma remove_channel_well_indexed name (st : state) :
  well_indexed st → well_indexed (exec (remove_channel name) st).
Proof.
  intros Hw. destruct st as [s h]. unfold exec.
  destruct (remove_channel_cases name s h) as [[e He] | (m & l & l' & Hl & Hl' & He)];
    rewrite He; cbn [snd]; [done|].
  intros k r Hk. cbn [fst snd] in Hk |- *.
  assert (items s !! k = Some r ∧ k ≠ name) as [Hks Hne].
  { destruct (items s !! name) eqn:Hn.
    - rewrite items_set_items in Hk. apply lookup_delete_Some in Hk as [? ?]. done.
    - split; [done|]. intros ->. congruence. }
  destruct (Hw k r Hks) as (m' & lk & Hm & Hlk & Hin). cbn [fst snd] in Hm, Hlk.
  rewrite deref_set_indexes. exists m'.
  assert (Hidx : index_of
            (match items s !! name with
             | Some _ => set_items (delete name) s
             | None => s
             end,
             set_indexes <[masterChannelList s :=
               <[m := l']> (deref_index h (masterChannelList s))]> h) =
            <[m := l']> (index_of (s, h))).
  { unfold index_of. cbn [fst snd].
    destruct (items s !! name); rewrite ?masterChannelList_set_items;
      apply deref_index_insert. }
  rewrite Hidx. unfold index_of in Hlk |- *. cbn [fst snd] in Hlk |- *.
  destruct (decide (m' = m)) as [->|Hm'].
  - exists l'. split; [done|]. split; [apply lookup_insert_eq|].
    rewrite Hl in Hlk. injection Hlk as <-. by eapply list_remove_other.
  - exists lk. split; [done|]. split; [|done]. by rewrite lookup_insert_ne.
Qed.

Lemma _setChannel_well_indexed name v f (st : state) :
  f ≠ masterField → well_indexed st → well_indexed (exec (_setChannel name v f) st).
Proof.
  intros Hf Hw. destruct st as [s h]. unfold exec. rewrite _setChannel_run.
  destruct (items s !! name) as [r|] eqn:Hr; cbn [snd]; [|done].
  intros k r' Hk. cbn [fst snd] in Hk |- *.
  destruct (Hw k r' Hk) as (m & l & Hm & Hl & Hin). cbn [fst snd] in Hm, Hl.
  exists m, l. split; [|split; [|done]].
  - destruct (decide (r = r')) as [<-|Hne].
    + rewrite deref_insert. by rewrite lookup_insert_ne.
    + by rewrite deref_insert_ne.
  - unfold index_of in Hl |- *. cbn [fst snd] in Hl |- *.
    by rewrite deref_index_set_dicts.
Qed.

Lemma run_calls_well_indexed cs (st : state) :
  Forall keeps_master cs → well_indexed st → well_indexed (run_calls cs st).
Proof.
  revert st. induction cs as [|c cs IH]; intros st Hcs Hw; [done|].
  apply Forall_cons in Hcs as [Hc Hcs]. unfold run_calls. cbn [foldl].
  apply IH; [done|]. destruct c; cbn [run_call keeps_master] in Hc |- *.
  - by apply add_channel_well_indexed.
  - by apply remove_channel_well_indexed.
  - by apply _setChannel_well_indexed.
Qed.

Lemma remove_channel_well_indexed_run name r (st : state) :
  well_indexed st →
  items st.1 !! name = Some r →
  outcome (remove_channel name) st = Ok (VRef r) ∧
  items (exec (remove_channel name) st).1 = delete name (items st.1).
Proof.
  intros Hw Hr. destruct (Hw name r Hr) as (m & l & Hm & Hl & Hin).
  destruct (list_remove_elem name l Hin) as [l' Hl'].
  destruct st as [s h]. cbn [fst snd] in *. unfold outcome, exec.
  rewrite (remove_channel_run name r m l l' s h Hr Hm Hl Hl'). cbn [fst snd].
  by rewrite items_set_items.
Qed.

(** X14. In a store reached from a new store by calls of [add_channel],
    [remove_channel] and the setters other than [setChannelMaster],
    whatever their arguments and whether they returned or raised,
    [remove_channel] on a key of the store returns the record of the key
    and the key is gone afterwards. *)
Theorem X14_remove_succeeds_while_master_kept cs name r :
  Forall keeps_master cs →
  items (run_calls cs new_store).1 !! name = Some r →
  outcome (remove_channel name) (run_calls cs new_store) = Ok (VRef r) ∧
  items (exec (remove_channel name) (run_calls cs new_store)).1 !! name = None.
Proof.
  intros Hcs Hr.
  destruct (remove_channel_well_indexed_run name r (run_calls cs new_store)) as [Ho Hi];
    [by apply run_calls_well_indexed, new_store_well_indexed|done|].
  split; [done|]. rewrite Hi. apply lookup_delete_eq.
Qed.

Lemma X14_witness :
  outcome (remove_channel "T_0")
    (run_calls [AddChannel 0 "T" (VList [VInt 1]) (Some "Time") (VInt 1) (VStr "") (VStr "") None;
                AddChannel 0 "T" (VList [VInt 2]) (Some "Time") (VInt 1) (VStr "") (VStr "") None;
                SetChannel "T" (VStr "s") unitField;
                AddChannel 0 "T" (VList [VInt 3]) (Some "Time") (VInt 1) (VStr "") (VStr "") None]
       new_store) = Ok (VRef 4%positive).
Proof.
  apply X14_remove_succeeds_while_master_kept.
  - repeat constructor. discriminate.
  - by vm_compute.
Defined.

(** ** Sequences of calls, and names that are taken *)

(** X15. Index and records agree in every state reached from a state
    where they agree by calls of [add_channel], [remove_channel] and the
    setters, whether the calls return or raise, provided no [add_channel]
    lands on a key that is taken. *)
Theorem X15_calls_keep_index_and_keys cs (st : state) :
  consistent st → free_keys cs st → consistent (run_calls cs st).
Proof. apply run_calls_consistent. Qed.

Lemma X15_witness :
  consistent
    (run_calls [AddChannel 0 "T" (VList [VInt 1]) (Some "Time") (VInt 1) (VStr "") (VStr "") None;
                AddChannel 1 "T" (VList [VInt 2]) None (VInt 1) (VStr "") (VStr "") None;
                RemoveChannel "T";
                SetChannel "T_1" (VStr "s") unitField]
       new_store).
Proof.
  apply X15_calls_keep_index_and_keys.
  - apply new_store_consistent.
  - repeat split; by vm_compute.
Defined.

(** X16. [add_channel] leaves the other channels alone: every key but
    the one it registers keeps its record object, every dictionary that
    was in the heap is as it was, and so every field of every other
    channel reads as before. *)
Theorem X16_add_leaves_other_channels g n data m mt u desc conv (st : state) k r d :
  let st' := exec (add_channel g n data m mt u desc conv) st in
  k ≠ key_of st.1 g n →
  items st.1 !! k = Some r →
  dicts st.2 !! r = Some d →
  items st'.1 !! k = Some r ∧
  dicts st'.2 !! r = Some d ∧
  ∀ f, outcome (_getChannelField k f) st' = outcome (_getChannelField k f) st.
Proof.
  destruct st as [s h]. cbv zeta. cbn [fst snd]. intros Hk Hr Hd.
  set (st' := exec _ _).
  destruct (add_channel_keeps g n data m mt u desc conv s h) as (Hks & Hds & _).
  fold st' in Hks, Hds.
  assert (Hr' : items st'.1 !! k = Some r) by (by rewrite Hks).
  assert (Hd' : dicts st'.2 !! r = Some d) by (by apply Hds).
  split; [done|]. split; [done|]. intros f.
  destruct st' as [s' h']. cbn [fst snd] in Hr', Hd'. unfold outcome.
  rewrite !_getChannelField_run, Hr, Hr'. cbn [fst]. unfold deref. by rewrite Hd, Hd'.
Qed.

Lemma X16_witness :
  outcome (_getChannelField "T" dataField) two_T =
  outcome (_getChannelField "T" dataField) one_T.
Proof.
  destruct (X16_add_leaves_other_channels 0 "T" (VList [VInt 2]) (Some "Time") (VInt 1)
              (VStr "") (VStr "") None one_T "T" 2%positive
              (new_record (VList [VInt 1]) (VStr "") (VStr "") (Some "Time") (VInt 1)))
    as (_ & _ & H).
  - discriminate.
  - vm_compute; reflexivity.
  - vm_compute; reflexivity.
  - exact (H dataField).
Defined.

(** X17. [add_channel] on a name that is taken registers the channel
    under the name followed by an underscore and the number of the data
    group, a key that differs from the name: the channel that has the name
    keeps it with its record, and the data passed are under the suffixed
    key. *)
Theorem X17_add_on_taken_name g n data m mt u desc conv (st : state) r d :
  let st' := exec (add_channel g n data m mt u desc conv) st in
  let key := n +:+ "_" +:+ pretty g in
  items st.1 !! n = Some r →
  dicts st.2 !! r = Some d →
  key_of st.1 g n = key ∧ key ≠ n ∧
  items st'.1 !! n = Some r ∧
  dicts st'.2 !! r = Some d ∧
  outcome (_getChannelField key dataField) st' = Ok data.
Proof.
  destruct st as [s h]. cbv zeta. cbn [fst snd]. intros Hr Hd.
  destruct (key_of_collision s g n r Hr) as [Hkey Hne].
  destruct (add_channel_collision g n data m mt u desc conv s h r d Hr Hd) as (H1 & H2 & _).
  rewrite Hkey in Hne. split; [done|]. split; [done|]. split; [done|]. split; [done|].
  rewrite <- Hkey. rewrite add_channel_field by done.
  unfold new_record. by simplify_map_eq.
Qed.

Lemma X17_witness :
  key_of one_T.1 0 "T" = "T_0" ∧
  outcome (_getChannelField "T_0" dataField) two_T = Ok (VList [VInt 2]).
Proof.
  destruct (X17_add_on_taken_name 0 "T" (VList [VInt 2]) (Some "Time") (VInt 1)
              (VStr "") (VStr "") None one_T 2%positive
              (new_record (VList [VInt 1]) (VStr "") (VStr "") (Some "Time") (VInt 1)))
    as (H1 & _ & _ & _ & H2).
  - vm_compute; reflexivity.
  - vm_compute; reflexivity.
  - split; [exact H1 | exact H2].
Defined.

(** ** The copy shares the objects of the source *)

Lemma copy_of_run s h :
  copy_of (s, h) =
  (Mdf (items s) (masterChannelList s) (multiProc s) (file_metadata s)
       (MDFVersionNumber s) (filterChannelNames s) (convert_tables s)
       false (fileName s),
   (__init__ false h).2).
Proof. unfold copy_of. by rewrite copy_run. Qed.

Lemma __init___dicts f h l d :
  dicts h !! l = Some d → dicts (__init__ f h).2 !! l = Some d.
Proof.
  intros Hl. unfold __init__. cbn. rewrite lookup_insert_ne; [done|].
  intros <-. apply (is_fresh (dom (dicts h))). apply elem_of_dom. eauto.
Qed.

Lemma __init___index f (h : heap) (l : loc) :
  deref_index (__init__ f h).2 l = deref_index h l.
Proof.
  unfold __init__, deref_index. cbn.
  destruct (decide (fresh (dom (indexes h)) = l)) as [<-|Hne].
  - rewrite lookup_insert_eq.
    assert (Hn : indexes h !! fresh (dom (indexes h)) = None).
    { apply not_elem_of_dom. apply is_fresh. }
    by rewrite Hn.
  - by rewrite lookup_insert_ne.
Qed.

(** X18. The copy has the keys of the source, each with the record
    object of the source, and the index and the metadata object of the
    source; when the records of the source are objects of the heap, every
    field of every channel reads through the copy as it reads through the
    source. *)
Theorem X18_copy_reads_as_source (st : state) :
  (∀ n r, items st.1 !! n = Some r → is_Some (dicts st.2 !! r)) →
  items (copy_of st).1 = items st.1 ∧
  masterChannelList (copy_of st).1 = masterChannelList st.1 ∧
  file_metadata (copy_of st).1 = file_metadata st.1 ∧
  index_of (copy_of st) = index_of st ∧
  (∀ n, outcome (getChannel n) (copy_of st) = outcome (getChannel n) st) ∧
  (∀ n f, outcome (_getChannelField n f) (copy_of st) =
          outcome (_getChannelField n f) st).
Proof.
  destruct st as [s h]. cbn [fst snd]. intros Hal. rewrite copy_of_run. cbn [fst snd].
  split; [done|]. split; [done|]. split; [done|]. split; [|split].
  - unfold index_of. cbn [fst snd]. apply __init___index.
  - intros n. unfold outcome. by rewrite !getChannel_run.
  - intros n f. unfold outcome. rewrite !_getChannelField_run. cbn [items].
    destruct (items s !! n) as [r|] eqn:Hr; [|done]. cbn [fst].
    destruct (Hal n r Hr) as [d Hd]. unfold deref.
    by rewrite (__init___dicts false h r d Hd), Hd.
Qed.

Lemma X18_witness :
  index_of (copy_of one_T) = index_of one_T.
Proof.
  destruct (X18_copy_reads_as_source one_T) as (_ & _ & _ & H & _).
  - assert (Hi : items one_T.1 = {["T" := 2%positive]}) by (vm_compute; reflexivity).
    assert (Hd : dicts one_T.2 !! 2%positive =
                 Some (new_record (VList [VInt 1]) (VStr "") (VStr "") (Some "Time") (VInt 1)))
      by (vm_compute; reflexivity).
    intros n r Hn. rewrite Hi in Hn. apply lookup_singleton_Some in Hn as [_ <-].
    eexists. exact Hd.
  - exact H.
Defined.

(** X19. What is written through the copy is written in the source: a
    field set through the copy on a channel is the value the source reads
    for that field, and metadata added through the copy are the metadata of
    the source. *)
Theorem X19_writes_through_copy_reach_source name r v f a o p s c d t (st : state) :
  items st.1 !! name = Some r →
  outcome (_getChannelField name f)
    (seen_in st.1 (exec (_setChannel name v f) (copy_of st))) = Ok v ∧
  deref (exec (add_metadata a o p s c d t) (copy_of st)).2 (file_metadata st.1) =
  metadata_after a o p s c d t (deref (copy_of st).2 (file_metadata st.1)).
Proof.
  destruct st as [s0 h]. cbn [fst]. intros Hr. rewrite copy_of_run. split.
  - unfold exec, seen_in, outcome. rewrite _setChannel_run. cbn [items]. rewrite Hr.
    cbn [fst snd]. rewrite _getChannelField_run, Hr. cbn [fst].
    by rewrite deref_insert, lookup_insert_eq.
  - unfold exec. rewrite add_metadata_run. cbn [fst snd file_metadata].
    by rewrite deref_insert.
Qed.

Lemma X19_witness :
  outcome (_getChannelField "T" unitField)
    (seen_in one_T.1 (exec (_setChannel "T" (VStr "s") unitField) (copy_of one_T))) =
  Ok (VStr "s").
Proof.
  destruct (X19_writes_through_copy_reach_source "T" 2%positive (VStr "s") unitField
              None None None None None None None one_T) as [H _].
  - vm_compute; reflexivity.
  - exact H.
Defined.




(** ** Stores created apart share nothing *)

Lemma __init___separate f h : separate (__init__ f h) h ∧ extends h (__init__ f h).
Proof.
  split; [split; [|split]|split].
  - apply is_fresh.
  - unfold __init__. cbn. apply is_fresh.
  - intros n r Hn. unfold __init__ in Hn. cbn in Hn. by rewrite lookup_empty in Hn.
  - intros l d Hl. by apply __init___dicts.
  - intros l i Hl. unfold __init__. cbn. rewrite lookup_insert_ne; [done|].
    intros <-. apply (is_fresh (dom (indexes h))). apply elem_of_dom. eauto.
Qed.

Lemma __init___allocated f h : allocated (__init__ f h).
Proof.
  split; [|split].
  - intros n r Hn. unfold __init__ in Hn. cbn in Hn. by rewrite lookup_empty in Hn.
  - unfold __init__. cbn. rewrite lookup_insert_eq. by eexists.
  - unfold __init__. cbn. rewrite lookup_insert_eq. by eexists.
Qed.

Lemma add_channel_separate g n data m mt u desc conv (st : state) h0 :
  separate st h0 → extends h0 st →
  separate (exec (add_channel g n data m mt u desc conv) st) h0 ∧
  extends h0 (exec (add_channel g n data m mt u desc conv) st).
Proof.
  destruct st as [s h]. intros (Hi & Hm & Hr) [Hd Hx]. cbn [fst snd] in *.
  destruct (add_channel_keeps g n data m mt u desc conv s h) as (_ & Hds & _).
  pose proof (add_channel_exec g n data m mt u desc conv s h) as [Hs (Hix & _ & _)].
  cbv zeta in Hds, Hs, Hix. revert Hds Hs Hix.
  set (st' := exec _ _). destruct st' as [s' h']. cbn [fst snd]. intros Hds -> Hix.
  split; [split; [|split]|split]; cbn [fst snd].
  - by rewrite masterChannelList_set_items.
  - by destruct s.
  - intros k r. rewrite items_set_items. intros Hk.
    destruct (decide (k = key_of s g n)) as [->|Hne].
    + rewrite lookup_insert_eq in Hk. injection Hk as <-.
      intros Hin. apply elem_of_dom in Hin as [d Hin].
      apply (is_fresh (dom (dicts h))). apply elem_of_dom. eauto.
    + rewrite lookup_insert_ne in Hk by done. by eapply Hr.
  - intros l d Hl. apply Hds. by apply Hd.
  - intros l i Hl. rewrite Hix. unfold registered. cbn [fst snd indexes].
    rewrite lookup_insert_ne; [by apply Hx|].
    intros <-. apply Hi. apply elem_of_dom. eauto.
Qed.

Lemma remove_channel_separate name (st : state) h0 :
  separate st h0 → extends h0 st →
  separate (exec (remove_channel name) st) h0 ∧ extends h0 (exec (remove_channel name) st).
Proof.
  destruct st as [s h]. intros (Hi & Hm & Hr) [Hd Hx]. cbn [fst snd] in *.
  unfold exec.
  destruct (remove_channel_cases name s h) as [[e He] | (m & l & l' & _ & _ & He)];
    rewrite He; cbn [snd]; [by repeat split|].
  split; [split; [|split]|split]; cbn [fst snd].
  - by destruct (items s !! name); rewrite ?masterChannelList_set_items.
  - by destruct (items s !! name); destruct s.
  - intros k r Hk. destruct (items s !! name).
    + rewrite items_set_items in Hk. apply lookup_delete_Some in Hk as [_ Hk]. by eapply Hr.
    + by eapply Hr.
  - intros k d Hk. by apply Hd.
  - intros k i Hk. cbn. rewrite lookup_insert_ne; [by apply Hx|].
    intros <-. apply Hi. apply elem_of_dom. eauto.
Qed.

Lemma _setChannel_separate name v f (st : state) h0 :
  separate st h0 → extends h0 st →
  separate (exec (_setChannel name v f) st) h0 ∧ extends h0 (exec (_setChannel name v f) st).
Proof.
  destruct st as [s h]. intros (Hi & Hm & Hr) [Hd Hx]. cbn [fst snd] in *.
  unfold exec. rewrite _setChannel_run.
  destruct (items s !! name) as [r|] eqn:Hn; cbn [snd]; [|by repeat split].
  split; [by repeat split|]. split; cbn [fst snd]; [|done].
  intros l d Hl. cbn. rewrite lookup_insert_ne; [by apply Hd|].
  intros <-. apply (Hr name r Hn). apply elem_of_dom. eauto.
Qed.

Lemma run_calls_separate cs (st : state) h0 :
  separate st h0 → extends h0 st →
  separate (run_calls cs st) h0 ∧ extends h0 (run_calls cs st).
Proof.
  revert st. induction cs as [|c cs IH]; intros st Hs He; [done|].
  unfold run_calls. cbn [foldl]. apply IH; destruct c; cbn [run_call].
  - by apply add_channel_separate.
  - by apply remove_channel_separate.
  - by apply _setChannel_separate.
  - by apply add_channel_separate.
  - by apply remove_channel_separate.
  - by apply _setChannel_separate.
Qed.

(** X21. A store created beside an existing one shares no object with
    it: whatever calls of [add_channel], [remove_channel] and the setters
    are made on the new store, its index, its metadata and its records are
    objects the heap did not have, and the existing store reads as before:
    its index, every field of every channel, its metadata. *)
Theorem X21_stores_created_apart_share_nothing f cs (st0 : state) :
  let st := run_calls cs (__init__ f st0.2) in
  allocated st0 →
  separate st st0.2 ∧
  index_of (seen_in st0.1 st) = index_of st0 ∧
  (∀ n fld, outcome (_getChannelField n fld) (seen_in st0.1 st) =
            outcome (_getChannelField n fld) st0) ∧
  deref st.2 (file_metadata st0.1) = deref st0.2 (file_metadata st0.1).
Proof.
  destruct st0 as [s0 h]. cbv zeta. cbn [fst snd]. intros (Hrec & [i Hi] & [md Hmd]).
  cbn [fst snd] in Hrec, Hi, Hmd.
  destruct (__init___separate f h) as [Hs He].
  destruct (run_calls_separate cs (__init__ f h) h Hs He) as [Hsep [Hd Hx]].
  split; [done|]. split; [|split].
  - unfold index_of, seen_in, deref_index. cbn [fst snd]. by rewrite (Hx _ _ Hi), Hi.
  - intros n fld. unfold outcome, seen_in. rewrite !_getChannelField_run. cbn [fst snd].
    destruct (items s0 !! n) as [r|] eqn:Hr; [|done]. cbn [fst].
    destruct (Hrec n r Hr) as [d Hdr]. unfold deref. by rewrite (Hd _ _ Hdr), Hdr.
  - unfold deref. by rewrite (Hd _ _ Hmd), Hmd.
Qed.

Lemma X21_witness :
  index_of
    (seen_in new_store.1
       (run_calls [AddChannel 0 "T" (VList [VInt 1]) (Some "Time") (VInt 1) (VStr "")
                     (VStr "") None;
                   SetChannel "T" (VStr "s") unitField]
          (__init__ true new_store.2))) =
  index_of new_store.
Proof.
  destruct (X21_stores_created_apart_share_nothing true
              [AddChannel 0 "T" (VList [VInt 1]) (Some "Time") (VInt 1) (VStr "") (VStr "") None;
               SetChannel "T" (VStr "s") unitField] new_store) as (_ & H & _).
  - apply __init___allocated.
  - exact H.
Defined.

(** ** What [add_metadata] leaves alone *)

(** X22. [add_metadata] writes the metadata dictionary and nothing else:
    the store object and the index are as they were, every other
    dictionary of the heap is as it was, and in the metadata dictionary
    every key but the seven it assigns keeps what it had. *)
Theorem X22_add_metadata_writes_only_metadata a o p s c d t (st : state) :
  let st' := exec (add_metadata a o p s c d t) st in
  st'.1 = st.1 ∧
  indexes st'.2 = indexes st.2 ∧
  (∀ l, l ≠ file_metadata st.1 → dicts st'.2 !! l = dicts st.2 !! l) ∧
  (∀ k, k ∉ ["author"; "organisation"; "project"; "subject"; "comment"; "date"; "time"] →
        deref st'.2 (file_metadata st.1) !! k = deref st.2 (file_metadata st.1) !! k).
Proof.
  destruct st as [s0 h]. cbv zeta. unfold exec. rewrite add_metadata_run. cbn [fst snd].
  split; [done|]. split; [done|]. split.
  - intros l Hl. cbn. by rewrite lookup_insert_ne.
  - intros k Hk. rewrite deref_insert. unfold metadata_after.
    rewrite !not_elem_of_cons in Hk. destruct Hk as (? & ? & ? & ? & ? & ? & ? & _).
    by rewrite !lookup_insert_ne.
Qed.
